(** * doc-chat-assistant: the vector store service and the RAG pipeline

    A shallow embedding of [app/services/vectorstore.py] and
    [app/services/rag_pipeline.py].

    The Python objects that the services share are kept in an explicit
    store: every FAISS object created by [FAISS.from_documents] lives at
    its own location, [self.vectorstore] is a reference to one of them,
    and a retriever is a reference too.  The calls into LangChain, FAISS,
    the file system and the language model are not part of the repository;
    their outcome (success or exception) is an input of every operation,
    so each theorem holds whatever these collaborators do.

    A [Document] is modelled by its value.  The one place where the
    service writes into objects it was handed, the tagging loop of
    [add_documents], is made explicit: the operation gives back the caller's
    list as the loop leaves it.  The store keeps the documents as they were
    tagged when they were inserted; the callers in [app/api/routes.py] hand
    over freshly split chunks and never a document taken from the store. *)

From stdpp Require Import gmap strings list fin_maps.

(** ** Python values *)

(** Values found in a [Document.metadata] dict: [None], a [str] (file
    name, source path), an [int] (page number). *)
Inductive MetaVal :=
  | MNone
  | MStr (s : string)
  | MInt (z : Z).

#[global] Instance MetaVal_eq_dec : EqDecision MetaVal.
Proof. solve_decision. Defined.

(** [langchain.schema.Document]: a text and a metadata dict. *)
Record Document := mkDocument {
  page_content : string;
  metadata : gmap string MetaVal }.

#[global] Instance Document_eq_dec : EqDecision Document.
Proof. solve_decision. Defined.

(** The value stored per document name in [documents_metadata]:
    [{'chunks': ..., 'filename': ...}]. *)
Record DocInfo := mkDocInfo {
  chunks : nat;
  filename : string }.

#[global] Instance DocInfo_eq_dec : EqDecision DocInfo.
Proof. solve_decision. Defined.

(** A call either returns or raises. *)
Inductive exn :=
  | FaissError      (* embedding / index construction / search failed *)
  | PersistError    (* a write below [settings.vectorstore_dir] failed *)
  | AttributeError  (* attribute access on [None] *)
  | IndexError      (* [embeddings[0]] of no embedding at all *)
  | ValueError      (* an array without rows handed to [index.add] *)
  | LlmError.       (* ChatGroq construction or generation failed *)

Inductive result (A : Type) :=
  | Return (a : A)
  | Raise (e : exn).
Arguments Return {A} a.
Arguments Raise {A} e.

(** ** The file system below [settings.vectorstore_dir] *)

(** One persisted artifact: missing, holding a complete value, or left
    half-written by a failed write. *)
Inductive persisted (A : Type) :=
  | Absent
  | Stored (a : A)
  | Damaged.
Arguments Absent {A}.
Arguments Stored {A} a.
Arguments Damaged {A}.

Definition exists_ {A} (p : persisted A) : bool :=
  match p with Absent => false | _ => true end.

(** Outcome of one write (or removal): it succeeds, or it fails, leaving
    the artifact untouched ([IoErr false]) or half-written ([IoErr true]). *)
Inductive io :=
  | IoOk
  | IoErr (partial : bool).

Definition after_failed_write {A} (partial : bool) (p : persisted A) : persisted A :=
  if partial then Damaged else p.

(** What the collaborators do during one service call. *)
Record env := mkEnv {
  faiss_ok : bool;   (* the embedding model and FAISS, on what they accept *)
  save_local : io;   (* vectorstore.save_local(index_path) *)
  rmtree : io;       (* shutil.rmtree(index_path) *)
  json_dump : io }.  (* open(metadata_path, 'w') + json.dump *)

(** Every collaborator succeeds. *)
Definition all_ok : env := mkEnv true IoOk IoOk IoOk.

(** ** The service state *)

(** [faiss_objects] is the store of FAISS objects: location [l] holds the
    documents of the object in index order ([index_to_docstore_id] composed
    with [docstore._dict]), so [index.ntotal] is its length.  Objects are
    only ever appended; an object no longer referenced by [vectorstore]
    stays where it is, as it does in Python while a retriever still refers
    to it. *)
Record VectorStoreService := mkService {
  faiss_objects : list (list Document);
  vectorstore : option nat;
  documents_metadata : gmap string DocInfo;
  index_path : persisted (list Document);
  metadata_path : persisted (gmap string DocInfo) }.

Definition set_faiss_objects (h : list (list Document)) (s : VectorStoreService) :=
  mkService h (vectorstore s) (documents_metadata s) (index_path s) (metadata_path s).
Definition set_vectorstore (v : option nat) (s : VectorStoreService) :=
  mkService (faiss_objects s) v (documents_metadata s) (index_path s) (metadata_path s).
Definition set_documents_metadata (m : gmap string DocInfo) (s : VectorStoreService) :=
  mkService (faiss_objects s) (vectorstore s) m (index_path s) (metadata_path s).
Definition set_index_path (p : persisted (list Document)) (s : VectorStoreService) :=
  mkService (faiss_objects s) (vectorstore s) (documents_metadata s) p (metadata_path s).
Definition set_metadata_path (p : persisted (gmap string DocInfo)) (s : VectorStoreService) :=
  mkService (faiss_objects s) (vectorstore s) (documents_metadata s) (index_path s) p.

(** [__init__] on an empty [vectorstore_dir]: no index, no metadata. *)
Definition init : VectorStoreService :=
  mkService [] None ∅ Absent Absent.

(** The documents of the FAISS object at [l]. *)
Definition object_docs (s : VectorStoreService) (l : nat) : list Document :=
  default [] (faiss_objects s !! l).

(** The documents of [self.vectorstore]. *)
Definition store_docs (s : VectorStoreService) : list Document :=
  match vectorstore s with
  | Some l => object_docs s l
  | None => []
  end.

(** ** FAISS *)

(** A new FAISS object that holds [documents]. *)
Definition new_faiss (documents : list Document) (s : VectorStoreService)
  : VectorStoreService * nat :=
  (set_faiss_objects (faiss_objects s ++ [documents]) s, length (faiss_objects s)).

(** [FAISS.from_documents(documents, embeddings)]: embeds the texts and
    builds a new object from them.  It takes the dimension of the index from
    the first embedding, so with no document at all it raises [IndexError],
    whatever the collaborators do. *)
Definition from_documents (documents : list Document) (e : env)
    (s : VectorStoreService) : VectorStoreService * result nat :=
  if faiss_ok e then
    match documents with
    | [] => (s, Raise IndexError)
    | _ :: _ => let '(s, l) := new_faiss documents s in (s, Return l)
    end
  else (s, Raise FaissError).

(** [vs.add_documents(documents)]: embeds the texts and appends to the
    object in place.  With no document at all the array of embeddings has no
    rows and [index.add] raises [ValueError]. *)
Definition faiss_add_documents (l : nat) (documents : list Document) (e : env)
    (s : VectorStoreService) : VectorStoreService * result unit :=
  if faiss_ok e then
    match documents with
    | [] => (s, Raise ValueError)
    | _ :: _ =>
        (set_faiss_objects (<[l := object_docs s l ++ documents]> (faiss_objects s)) s,
         Return ())
    end
  else (s, Raise FaissError).

(** ** VectorStoreService *)

(** [_save_metadata]: the exception of a failed write is logged and
    swallowed. *)
Definition _save_metadata (e : env) (s : VectorStoreService) : VectorStoreService :=
  match json_dump e with
  | IoOk => set_metadata_path (Stored (documents_metadata s)) s
  | IoErr partial => set_metadata_path (after_failed_write partial (metadata_path s)) s
  end.

(** [_save_vectorstore]: logs and re-raises. *)
Definition _save_vectorstore (e : env) (s : VectorStoreService)
  : VectorStoreService * result unit :=
  match vectorstore s with
  | None => (s, Raise AttributeError)
  | Some l =>
      match save_local e with
      | IoOk => (set_index_path (Stored (object_docs s l)) s, Return ())
      | IoErr partial =>
          (set_index_path (after_failed_write partial (index_path s)) s, Raise PersistError)
      end
  end.

(** [doc.metadata['filename'] = filename] *)
Definition tag (filename : string) (doc : Document) : Document :=
  mkDocument (page_content doc) (<["filename" := MStr filename]> (metadata doc)).

(** The ledger update of [add_documents]. *)
Definition record_chunks (filename : string) (n : nat) (m : gmap string DocInfo)
  : gmap string DocInfo :=
  match m !! filename with
  | Some (mkDocInfo c f) => <[filename := mkDocInfo (c + n) f]> m
  | None => <[filename := mkDocInfo n filename]> m
  end.

(** [add_documents(documents, filename)].  The first component is the
    caller's list of [Document] objects as the call leaves them: the loop
    at the top of the [try] block writes into the objects it was given. *)
Definition add_documents (s : VectorStoreService) (documents : list Document)
    (filename : string) (e : env)
  : list Document * VectorStoreService * result nat :=
  let documents := tag filename <$> documents in
  let '(s, inserted) :=
    match vectorstore s with
    | None =>
        match from_documents documents e s with
        | (s, Return l) => (set_vectorstore (Some l) s, Return ())
        | (s, Raise x) => (s, Raise x)
        end
    | Some l => faiss_add_documents l documents e s
    end in
  match inserted with
  | Raise x => (documents, s, Raise x)
  | Return _ =>
      let s := set_documents_metadata
                 (record_chunks filename (length documents) (documents_metadata s)) s in
      match _save_vectorstore e s with
      | (s, Return _) => (documents, _save_metadata e s, Return (length documents))
      | (s, Raise x) => (documents, s, Raise x)
      end
  end.

(** [is_ready] *)
Definition is_ready (s : VectorStoreService) : bool :=
  bool_decide (vectorstore s ≠ None).

(** [get_document_count]: [index.ntotal] of the current object, [0]
    without one. *)
Definition get_document_count (s : VectorStoreService) : nat :=
  match vectorstore s with
  | None => 0
  | Some l => length (object_docs s l)
  end.

(** [get_stats] *)
Record Stats := mkStats {
  total_chunks : nat;
  total_documents : nat;
  documents : gmap string DocInfo }.

Definition get_stats (s : VectorStoreService) : Stats :=
  mkStats (get_document_count s) (size (documents_metadata s)) (documents_metadata s).

(** [list_documents]: one [{'filename': ..., 'chunks': ...}] per item of
    the ledger.  The ledger is a finite map, so the entries come in the
    order of the names, where the Python dict gives them in the order in
    which the names were first recorded; the properties below speak of the
    entries, their number and their names, not of their order. *)
Definition list_documents (s : VectorStoreService) : list (string * nat) :=
  (λ item, (item.1, chunks item.2)) <$> map_to_list (documents_metadata s).

(** The test of the scan in [delete_document]:
    [doc.metadata.get('filename') != filename].  (The other conjunct, the
    truth value of [doc], holds of every [Document] in the docstore.) *)
Definition tagged (filename : string) (doc : Document) : Prop :=
  metadata doc !! "filename" = Some (MStr filename).

#[global] Instance tagged_dec filename doc : Decision (tagged filename doc).
Proof. unfold tagged. apply _. Defined.

(** [delete_document(filename)].  The [try] block turns every exception
    into the answer [False]; the state is whatever the statements before
    the failing one made of it. *)
Definition delete_document (s : VectorStoreService) (filename : string) (e : env)
  : VectorStoreService * bool :=
  match documents_metadata s !! filename with
  | None => (s, false)
  | Some _ =>
      match vectorstore s with
      | None => (s, false)
      | Some l =>
          let docs_to_keep := filter (λ doc, ¬ tagged filename doc) (object_docs s l) in
          let s := set_documents_metadata (delete filename (documents_metadata s)) s in
          match docs_to_keep with
          | _ :: _ =>
              match from_documents docs_to_keep e s with
              | (s, Return l') =>
                  let s := set_vectorstore (Some l') s in
                  match _save_vectorstore e s with
                  | (s, Return _) => (_save_metadata e s, true)
                  | (s, Raise _) => (s, false)
                  end
              | (s, Raise _) => (s, false)
              end
          | [] =>
              let s := set_vectorstore None s in
              if exists_ (index_path s) then
                match rmtree e with
                | IoOk => (_save_metadata e (set_index_path Absent s), true)
                | IoErr partial =>
                    (set_index_path (after_failed_write partial (index_path s)) s, false)
                end
              else (_save_metadata e s, true)
          end
      end
  end.

(** ** Searching *)

(** The retriever object returned by [FAISS.as_retriever]: a reference to
    the FAISS object it was made from, and [search_kwargs]. *)
Record Retriever := mkRetriever {
  retriever_vectorstore : nat;
  search_k : Z }.

Section Search.

(** The nearest-neighbour search of FAISS over the documents of one
    object: query, [k], indexed documents. *)
Variable faiss_search : string → Z → list Document → list Document.

(** [similarity_search(query, k)] *)
Definition similarity_search (s : VectorStoreService) (query : string) (k : Z)
    (e : env) : result (list Document) :=
  match vectorstore s with
  | None => Return []
  | Some l =>
      if faiss_ok e then Return (faiss_search query k (object_docs s l))
      else Raise FaissError
  end.

(** [retriever.invoke(query)]: searches the object the retriever refers
    to, as that object is when the call is made. *)
Definition invoke (s : VectorStoreService) (r : Retriever) (query : string)
    (e : env) : result (list Document) :=
  if faiss_ok e
  then Return (faiss_search query (search_k r) (object_docs s (retriever_vectorstore r)))
  else Raise FaissError.

End Search.

(** [get_retriever(k)] *)
Definition get_retriever (s : VectorStoreService) (k : Z) (e : env)
  : result (option Retriever) :=
  match vectorstore s with
  | None => Return None
  | Some l =>
      if faiss_ok e then Return (Some (mkRetriever l k)) else Raise FaissError
  end.

(** ** Sequences of mutating calls *)

Inductive call :=
  | AddDocuments (documents : list Document) (filename : string) (e : env)
  | DeleteDocument (filename : string) (e : env).

Definition step (s : VectorStoreService) (c : call) : VectorStoreService :=
  match c with
  | AddDocuments documents filename e => (add_documents s documents filename e).1.2
  | DeleteDocument filename e => (delete_document s filename e).1
  end.

Definition run (s : VectorStoreService) (cs : list call) : VectorStoreService :=
  foldl step s cs.

(** A state the service reaches from the empty corpus. *)
Definition reachable (s : VectorStoreService) : Prop :=
  ∃ cs, s = run init cs.

(** How many documents of a list carry the tag [filename]. *)
Definition count_tagged (filename : string) (docs : list Document) : nat :=
  length (filter (tagged filename) docs).

(** The sum of the recorded chunk counts. *)
Definition recorded_total (m : gmap string DocInfo) : nat :=
  map_fold (λ _ info acc, chunks info + acc) 0 m.

(** ** RAGPipeline *)

(** One entry of the [sources] list: the dict built by [_format_sources].
    The key ["page"] is present exactly when [page] is not [None]. *)
Record SourceInfo := mkSourceInfo {
  content : string;
  source : MetaVal;
  page : option MetaVal }.

(** The dict returned by [query]. *)
Record QueryResult := mkQueryResult {
  answer : string;
  sources : list SourceInfo;
  question : string }.

(** [s[:n]] on a [str]. *)
Definition str_prefix (n : nat) (s : string) : string := String.substring 0 n s.

(** The body of the loop of [_format_sources]. *)
Definition format_source (doc : Document) : SourceInfo :=
  mkSourceInfo
    (if bool_decide (500 < String.length (page_content doc))
     then str_prefix 500 (page_content doc) +:+ "..."
     else page_content doc)
    (default (MStr "Unknown") (metadata doc !! "source"))
    (metadata doc !! "page").

(** [_format_sources(documents)] *)
Definition _format_sources (documents : list Document) : list SourceInfo :=
  format_source <$> documents.

Section Pipeline.

(** Python's [float]; the pipeline only passes temperatures on. *)
Variable float : Type.

(** [settings.temperature] and [settings.max_tokens]. *)
Variable settings_temperature : option float.
Variable settings_max_tokens : option Z.

Variable faiss_search : string → Z → list Document → list Document.

(** One generation request: the resolved knobs of the [ChatGroq] client,
    the retrieved context stuffed into the prompt, and the question. *)
Record LlmCall := mkLlmCall {
  llm_temperature : option float;
  llm_max_tokens : option Z;
  llm_context : list Document;
  llm_question : string }.

(** The language model behind [ChatGroq]. *)
Variable generate : LlmCall → result string.

(** [query(question, k, temperature, max_tokens)] on the service state
    [s].  [e_retriever] and [e_search] are what FAISS does when the
    retriever is made and when the chain runs it; [groq_ok] tells whether
    the [ChatGroq] constructor succeeds.  Beside the outcome, the function
    gives the generation requests made, in order. *)
Definition query (s : VectorStoreService) (question : string) (k : Z)
    (temperature : option float) (max_tokens : option Z)
    (e_retriever e_search : env) (groq_ok : bool)
  : result QueryResult * list LlmCall :=
  if negb (is_ready s) then
    (Return (mkQueryResult
               "No documents have been uploaded yet. Please upload documents first."
               [] question), [])
  else
    match get_retriever s k e_retriever with
    | Raise x => (Raise x, [])
    | Return None =>
        (Return (mkQueryResult "Vector store is not available." [] question), [])
    | Return (Some retriever) =>
        let temp := match temperature with Some t => Some t | None => settings_temperature end in
        let max_tok := match max_tokens with Some m => Some m | None => settings_max_tokens end in
        if groq_ok then
          match invoke faiss_search s retriever question e_search with
          | Raise x => (Raise x, [])
          | Return source_docs =>
              let request := mkLlmCall temp max_tok source_docs question in
              match generate request with
              | Raise x => (Raise x, [request])
              | Return answer =>
                  (Return (mkQueryResult answer (_format_sources source_docs) question),
                   [request])
              end
          end
        else (Raise LlmError, [])
    end.

End Pipeline.

(** * Predicates on states *)

(** [self.vectorstore] refers to an object that exists. *)
Definition well_formed (s : VectorStoreService) : Prop :=
  ∀ l, vectorstore s = Some l → l < length (faiss_objects s).

(** The three fields that live in memory. *)
Definition memory (s : VectorStoreService) :=
  (faiss_objects s, vectorstore s, documents_metadata s).

(** The surviving documents of the scan. *)
Definition docs_to_keep (s : VectorStoreService) (f : string) : list Document :=
  filter (λ doc, ¬ tagged f doc) (store_docs s).

(** Every recorded count is the number of documents with that tag. *)
Definition counts_match (s : VectorStoreService) : Prop :=
  ∀ name info, documents_metadata s !! name = Some info →
    chunks info = count_tagged name (store_docs s).

(** Every stored document carries the name of a ledger record. *)
Definition all_recorded (s : VectorStoreService) : Prop :=
  ∀ doc, doc ∈ store_docs s →
    ∃ name, tagged name doc ∧ is_Some (documents_metadata s !! name).

Definition consistent (s : VectorStoreService) : Prop :=
  well_formed s ∧ counts_match s ∧ all_recorded s.

(** The calls of a sequence in which no rebuild raises: every
    [delete_document] finds FAISS working. *)
Definition rebuild_succeeds (c : call) : Prop :=
  match c with
  | AddDocuments _ _ _ => True
  | DeleteDocument _ e => faiss_ok e = true
  end.

(** * Sample data *)

Definition plain (text : string) : Document := mkDocument text ∅.

(** FAISS (the embedding model behind it) is down. *)
Definition faiss_down : env := mkEnv false IoOk IoOk IoOk.

(** The index directory cannot be written. *)
Definition disk_full : env := mkEnv true (IoErr false) (IoErr false) (IoErr false).

(** Two uploads: ["a.txt"] in two chunks, ["b.txt"] in one. *)
Definition two_uploads : list call :=
  [AddDocuments [plain "x"; plain "y"] "a.txt" all_ok;
   AddDocuments [plain "z"] "b.txt" all_ok].

(** ... then a delete of ["a.txt"] whose rebuild raises, and a new upload
    of ["a.txt"] in one chunk. *)
Definition failed_rebuild_then_upload : list call :=
  two_uploads ++
  [DeleteDocument "a.txt" faiss_down;
   AddDocuments [plain "w"] "a.txt" all_ok].

(** A start-up that found the metadata file but no usable index:
    [_load_vectorstore] logs the failure and leaves [vectorstore] at
    [None], [_load_metadata] fills the ledger. *)
Definition ledger_without_store : VectorStoreService :=
  mkService [] None {["a.txt" := mkDocInfo 1 "a.txt"]} Absent
    (Stored {["a.txt" := mkDocInfo 1 "a.txt"]}).

(** A search that answers with the first [k] indexed documents. *)
Definition first_k (query : string) (k : Z) (docs : list Document) : list Document :=
  take (Z.to_nat k) docs.

(** * Properties of states and calls *)

(** The ledger invariant: every recorded count is the number of stored
    fragments with that name, and the counts add up to
    [get_document_count]. *)
Definition ledger_agrees (s : VectorStoreService) : Prop :=
  (∀ name info, documents_metadata s !! name = Some info →
     chunks info = count_tagged name (store_docs s))
  ∧ recorded_total (documents_metadata s) = get_document_count s.

(** A call that answers [False] leaves the state as it was. *)
Definition failure_keeps_state (s : VectorStoreService) (f : string) (e : env) : Prop :=
  (delete_document s f e).2 = false → (delete_document s f e).1 = s.

(** A retriever [r] made with [k] and used in the state [s'] answers as
    a search of the store as it is in [s']. *)
Definition reflects_store (faiss_search : string → Z → list Document → list Document)
    (r : Retriever) (k : Z) (s' : VectorStoreService) : Prop :=
  ∀ query e, invoke faiss_search s' r query e = similarity_search faiss_search s' query k e.

(** After [delete_document(f)] the name is not listed and [total_chunks]
    has gone down by the count that was recorded for it. *)
Definition delete_removes (s : VectorStoreService) (f : string) (e : env) : Prop :=
  (∀ n, (f, n) ∉ list_documents (delete_document s f e).1)
  ∧ (∀ info, documents_metadata s !! f = Some info →
       total_chunks (get_stats s)
       = total_chunks (get_stats (delete_document s f e).1) + chunks info).

(** The attribution names [f] as its source. *)
Definition attributed_to (f : string) (info : SourceInfo) : Prop :=
  source info = MStr f.

(** A chunk as the loaders and the splitter hand it over: the path of the
    uploaded file under the key ['source']. *)
Definition loaded_chunk : Document :=
  mkDocument "hello" {["source" := MStr "data/documents/a.txt"]}.

(** Python's [s * n]. *)
Fixpoint str_repeat (s : string) (n : nat) : string :=
  match n with
  | 0 => ""
  | S n => s +:+ str_repeat s n
  end.

(** A text of 503 characters that ends in three dots. *)
Definition dotted_text : string := str_repeat "a" 500 +:+ "...".

(** With an empty ledger the service holds no FAISS object, or one that
    still has documents (the leftovers of a rebuild that raised). *)
Definition cleared_or_populated (s : VectorStoreService) : Prop :=
  documents_metadata s = ∅ → vectorstore s = None ∨ store_docs s ≠ [].

(** * Start-up and health *)

(** What the collaborators do while the service is constructed. *)
Record load_env := mkLoadEnv {
  embeddings_ok : bool;   (* HuggingFaceEmbeddings(...) *)
  load_local_ok : bool;   (* FAISS.load_local(index_path, ...) *)
  json_load_ok : bool }.  (* open(metadata_path, 'r') + json.load *)

(** [_load_vectorstore]: loads the index when [index_path] exists; an
    exception (a loader that fails, an index left half-written) is logged
    and swallowed, and [vectorstore] stays [None]. *)
Definition _load_vectorstore (e : load_env) (s : VectorStoreService)
  : VectorStoreService :=
  if exists_ (index_path s) then
    match index_path s with
    | Stored docs =>
        if load_local_ok e then
          let '(s, l) := new_faiss docs s in
          set_vectorstore (Some l) s
        else s
    | _ => s
    end
  else s.

(** [_load_metadata]: loads the ledger when [metadata_path] exists; on an
    exception the ledger is reset to the empty dict. *)
Definition _load_metadata (e : load_env) (s : VectorStoreService)
  : VectorStoreService :=
  if exists_ (metadata_path s) then
    match metadata_path s with
    | Stored m =>
        if json_load_ok e then set_documents_metadata m s
        else set_documents_metadata ∅ s
    | _ => set_documents_metadata ∅ s
    end
  else s.

(** [VectorStoreService.__init__] in a process that finds the two given
    artifacts below [settings.vectorstore_dir].  Only
    [_initialize_embeddings] re-raises. *)
Definition __init__ (index : persisted (list Document))
    (meta : persisted (gmap string DocInfo)) (e : load_env)
  : result VectorStoreService :=
  let s := mkService [] None ∅ index meta in
  if embeddings_ok e then Return (_load_metadata e (_load_vectorstore e s))
  else Raise FaissError.

(** The constructor run again, in a new process, on the files that the
    state [s] leaves behind. *)
Definition restart (s : VectorStoreService) (e : load_env) : result VectorStoreService :=
  __init__ (index_path s) (metadata_path s) e.

(** Every loader works. *)
Definition loads_ok : load_env := mkLoadEnv true true true.

(** The two files hold what the service holds in memory. *)
Definition persisted_in_sync (s : VectorStoreService) : Prop :=
  metadata_path s = Stored (documents_metadata s)
  ∧ index_path s = match vectorstore s with
                   | Some l => Stored (object_docs s l)
                   | None => Absent
                   end.

Section Health.

(** The client object made by [ChatGroq(...)]. *)
Variable ChatGroq : Type.

(** The part of a [RAGPipeline] object that [health_check] reads. *)
Record RAGPipeline := mkRAGPipeline {
  llm : option ChatGroq }.

(** [RAGPipeline.__init__]: [self.llm = None], then [_initialize_llm],
    which assigns the client or logs and re-raises. *)
Definition RAGPipeline_init (client : result ChatGroq) : result RAGPipeline :=
  match client with
  | Return c => Return (mkRAGPipeline (Some c))
  | Raise x => Raise x
  end.

(** The dict returned by [health_check]. *)
Record Health := mkHealth {
  llm_ready : bool;
  vectorstore_ready : bool;
  document_count : nat }.

(** [health_check] *)
Definition health_check (p : RAGPipeline) (s : VectorStoreService) : Health :=
  mkHealth (bool_decide (is_Some (llm p))) (is_ready s) (get_document_count s).

End Health.

(** The knob handed to [ChatGroq] in [query]: the argument when it is not
    [None], the setting otherwise. *)
Definition resolve {A} (argument setting : option A) : option A :=
  match argument with Some a => Some a | None => setting end.

(** * Properties *)

(** ** Reading the state *)

Lemma get_document_count_store_docs s :
  get_document_count s = length (store_docs s).
Proof. unfold get_document_count, store_docs. by destruct (vectorstore s). Qed.

Lemma is_ready_false s : is_ready s = false ↔ vectorstore s = None.
Proof.
  unfold is_ready. rewrite bool_decide_eq_false.
  destruct (vectorstore s); naive_solver.
Qed.

(** ** What one call does to the state in memory *)

Lemma _save_metadata_memory e s : memory (_save_metadata e s) = memory s.
Proof. unfold _save_metadata. by destruct (json_dump e). Qed.

Lemma _save_vectorstore_memory e s : memory (_save_vectorstore e s).1 = memory s.
Proof.
  unfold _save_vectorstore.
  destruct (vectorstore s); [|done]. by destruct (save_local e).
Qed.

Lemma memory_store_docs s1 s2 : memory s1 = memory s2 → store_docs s1 = store_docs s2.
Proof.
  unfold memory, store_docs, object_docs. intros [= Hh Hv Hm]. by rewrite Hh, Hv.
Qed.

Lemma memory_well_formed s1 s2 : memory s1 = memory s2 → well_formed s1 → well_formed s2.
Proof. unfold memory, well_formed. intros [= Hh Hv Hm] Hwf l. rewrite <- Hh, <- Hv. apply Hwf. Qed.

(** [add_documents] whose insert fails leaves the service as it was. *)
Lemma add_documents_insert_fails s docs f e :
  faiss_ok e = false →
  add_documents s docs f e = (tag f <$> docs, s, Raise FaissError).
Proof.
  intros He. unfold add_documents, from_documents, faiss_add_documents.
  rewrite He. by destruct (vectorstore s).
Qed.

(** [add_documents] of no document raises (FAISS embeds nothing and has
    nothing to build from or to append) and leaves the service as it was. *)
Lemma add_documents_empty s f e :
  (add_documents s [] f e).1.2 = s
  ∧ (add_documents s [] f e).2
    = Raise (if faiss_ok e
             then match vectorstore s with None => IndexError | Some _ => ValueError end
             else FaissError).
Proof.
  unfold add_documents, from_documents, faiss_add_documents.
  by destruct (vectorstore s), (faiss_ok e).
Qed.

(** What [add_documents] does in memory up to the two writes, when the
    insert succeeds. *)
Lemma add_documents_unfold s doc docs f e :
  faiss_ok e = true →
  add_documents s (doc :: docs) f e =
    let documents := tag f <$> (doc :: docs) in
    let s1 := match vectorstore s with
              | None => set_vectorstore (Some (length (faiss_objects s)))
                          (new_faiss documents s).1
              | Some l =>
                  set_faiss_objects
                    (<[l := object_docs s l ++ documents]> (faiss_objects s)) s
              end in
    let s2 := set_documents_metadata
                (record_chunks f (length documents) (documents_metadata s1)) s1 in
    match _save_vectorstore e s2 with
    | (s3, Return _) => (documents, _save_metadata e s3, Return (length documents))
    | (s3, Raise x) => (documents, s3, Raise x)
    end.
Proof.
  intros He. unfold add_documents, from_documents, faiss_add_documents, new_faiss.
  rewrite He. by destruct (vectorstore s).
Qed.

(** [add_documents] returns the number of documents when the insert and
    the index write succeed. *)
Lemma add_documents_returns s docs f e :
  faiss_ok e = true → docs ≠ [] → save_local e = IoOk →
  (add_documents s docs f e).2 = Return (length docs).
Proof.
  intros He Hne Hsave. destruct docs as [|doc docs]; [done|].
  rewrite add_documents_unfold by done. cbv zeta.
  unfold _save_vectorstore, new_faiss.
  destruct (vectorstore s) eqn:Hv; simpl; rewrite ?Hv, Hsave; simpl;
    by rewrite length_fmap.
Qed.

(** [add_documents] raises the write error when the insert succeeds and
    the index write fails. *)
Lemma add_documents_write_raises s docs f e partial :
  faiss_ok e = true → docs ≠ [] → save_local e = IoErr partial →
  (add_documents s docs f e).2 = Raise PersistError
  ∧ metadata_path (add_documents s docs f e).1.2 = metadata_path s.
Proof.
  intros He Hne Hsave. destruct docs as [|doc docs]; [done|].
  rewrite add_documents_unfold by done. cbv zeta.
  unfold _save_vectorstore, new_faiss.
  destruct (vectorstore s) eqn:Hv; simpl; by rewrite ?Hv, Hsave.
Qed.

(** The caller's list comes back tagged on every path. *)
Lemma add_documents_arguments s docs f e :
  (add_documents s docs f e).1.1 = tag f <$> docs.
Proof.
  destruct (faiss_ok e) eqn:He; [|by rewrite add_documents_insert_fails].
  destruct docs as [|doc docs].
  - unfold add_documents, from_documents, faiss_add_documents.
    rewrite He. by destruct (vectorstore s).
  - rewrite add_documents_unfold by done. cbv zeta.
    by destruct (_save_vectorstore e _) as [s3 [[]|x]].
Qed.

(** [add_documents] whose insert succeeds: the documents are appended
    under their tag and the ledger is updated, whatever the two writes that
    follow do. *)
Lemma add_documents_inserted s docs f e :
  well_formed s → faiss_ok e = true → docs ≠ [] →
  let s' := (add_documents s docs f e).1.2 in
  store_docs s' = store_docs s ++ (tag f <$> docs)
  ∧ documents_metadata s' = record_chunks f (length docs) (documents_metadata s)
  ∧ vectorstore s' ≠ None
  ∧ (∀ l, vectorstore s = Some l → vectorstore s' = Some l)
  ∧ well_formed s'.
Proof.
  intros Hwf He Hne. destruct docs as [|doc docs]; [done|]. clear Hne.
  rewrite add_documents_unfold by done. cbv zeta.
  set (documents := tag f <$> doc :: docs).
  match goal with |- context [_save_vectorstore e ?x] => set (s2 := x) end.
  assert (Hs2 : store_docs s2 = store_docs s ++ documents
                ∧ documents_metadata s2
                  = record_chunks f (length (doc :: docs)) (documents_metadata s)
                ∧ vectorstore s2 ≠ None
                ∧ (∀ l, vectorstore s = Some l → vectorstore s2 = Some l)
                ∧ well_formed s2).
  { subst s2. unfold store_docs, well_formed, new_faiss.
    destruct (vectorstore s) as [l|] eqn:Hv; simpl.
    - rewrite Hv; simpl. pose proof (Hwf l Hv) as Hl.
      unfold object_docs at 1; simpl.
      rewrite list_lookup_insert_eq by done; simpl.
      unfold documents. rewrite length_fmap, length_insert.
      repeat split; try done. intros l' [= <-]. done.
    - unfold object_docs; simpl.
      rewrite lookup_app_r, Nat.sub_diag by lia; simpl.
      unfold documents. rewrite length_fmap, length_app; simpl.
      repeat split; try done. intros l' [= <-]. lia. }
  clearbody s2. simpl.
  pose proof (_save_vectorstore_memory e s2) as Hm.
  destruct (_save_vectorstore e s2) as [s3 [[]|x]]; simpl in *.
  - pose proof (_save_metadata_memory e s3) as Hm2.
    rewrite Hm in Hm2.
    destruct Hs2 as (H1 & H2 & H3 & H4 & H5).
    rewrite (memory_store_docs _ _ Hm2).
    injection Hm2 as Hh Hv Hd. rewrite Hv, Hd.
    repeat split; try done.
    eapply memory_well_formed; [|exact H5]. unfold memory. by rewrite Hh, Hv, Hd.
  - destruct Hs2 as (H1 & H2 & H3 & H4 & H5).
    rewrite (memory_store_docs _ _ Hm).
    injection Hm as Hh Hv Hd. rewrite Hv, Hd.
    repeat split; try done.
    eapply memory_well_formed; [|exact H5]. unfold memory. by rewrite Hh, Hv, Hd.
Qed.

Lemma delete_document_unknown s f e :
  documents_metadata s !! f = None → delete_document s f e = (s, false).
Proof. intros H. unfold delete_document. by rewrite H. Qed.

Lemma delete_document_no_store s f e :
  vectorstore s = None → delete_document s f e = (s, false).
Proof.
  intros H. unfold delete_document. rewrite H.
  by destruct (documents_metadata s !! f).
Qed.

(** Past the two checks: what [delete_document] leaves in memory.  The
    ledger record is gone in every case; the store is cleared, rebuilt, or
    (when the rebuild raises) left as it was. *)
Lemma delete_document_memory s f e l :
  is_Some (documents_metadata s !! f) → vectorstore s = Some l →
  memory (delete_document s f e).1 =
    match docs_to_keep s f with
    | [] => (faiss_objects s, None, delete f (documents_metadata s))
    | _ :: _ =>
        if faiss_ok e
        then (faiss_objects s ++ [docs_to_keep s f],
              Some (length (faiss_objects s)), delete f (documents_metadata s))
        else (faiss_objects s, Some l, delete f (documents_metadata s))
    end.
Proof.
  intros [info Hi] Hv. unfold docs_to_keep, store_docs, delete_document, from_documents, new_faiss.
  rewrite Hi, Hv.
  destruct (filter _ (object_docs s l)) as [|doc keep]; simpl.
  - destruct (exists_ (index_path s)); [destruct (rmtree e)|]; simpl;
      by rewrite ?_save_metadata_memory.
  - destruct (faiss_ok e); [|by unfold memory; simpl; rewrite Hv].
    set (s1 := set_vectorstore _ _).
    pose proof (_save_vectorstore_memory e s1) as Hm.
    destruct (_save_vectorstore e s1) as [s2 [[]|x]]; simpl in *;
      by rewrite ?_save_metadata_memory, Hm.
Qed.

(** [delete_document] answers [True] only past the two checks and only
    when the rebuild did not raise. *)
Lemma delete_document_true s f e :
  (delete_document s f e).2 = true →
  is_Some (documents_metadata s !! f) ∧ vectorstore s ≠ None
  ∧ (faiss_ok e = true ∨ docs_to_keep s f = []).
Proof.
  unfold docs_to_keep, store_docs, delete_document, from_documents, new_faiss.
  destruct (documents_metadata s !! f) as [info|]; [|done].
  destruct (vectorstore s) as [l|]; [|done].
  destruct (filter _ (object_docs s l)) as [|doc keep]; simpl; [by eauto|].
  destruct (faiss_ok e); [by eauto|done].
Qed.

(** The metadata file is written on the successful path only. *)
Lemma delete_document_false_metadata_path s f e :
  (delete_document s f e).2 = false →
  metadata_path (delete_document s f e).1 = metadata_path s.
Proof.
  unfold delete_document, from_documents, new_faiss.
  destruct (documents_metadata s !! f) as [info|]; [|done].
  destruct (vectorstore s) as [l|]; [|done].
  destruct (filter _ (object_docs s l)) as [|doc keep]; simpl.
  - destruct (exists_ (index_path s)); [destruct (rmtree e)|]; done.
  - destruct (faiss_ok e); [|done].
    unfold _save_vectorstore; simpl. by destruct (save_local e).
Qed.

Lemma delete_document_store s f e :
  is_Some (documents_metadata s !! f) → vectorstore s ≠ None →
  faiss_ok e = true ∨ docs_to_keep s f = [] →
  store_docs (delete_document s f e).1 = docs_to_keep s f
  ∧ documents_metadata (delete_document s f e).1 = delete f (documents_metadata s)
  ∧ (docs_to_keep s f = [] → vectorstore (delete_document s f e).1 = None).
Proof.
  intros Hi Hv Hok. destruct (vectorstore s) as [l|] eqn:Hl; [clear Hv|done].
  pose proof (delete_document_memory s f e l Hi Hl) as Hm.
  unfold store_docs, object_docs.
  destruct (docs_to_keep s f) as [|doc keep] eqn:Hk.
  - injection Hm as -> -> ->. done.
  - destruct Hok as [Hok|]; [|done]. rewrite Hok in Hm.
    injection Hm as -> -> ->. by rewrite list_lookup_middle.
Qed.

(** When the rebuild raises, the store still holds every document while
    the ledger has lost the record. *)
Lemma delete_document_rebuild_raises s f e :
  is_Some (documents_metadata s !! f) → vectorstore s ≠ None →
  faiss_ok e = false → docs_to_keep s f ≠ [] →
  store_docs (delete_document s f e).1 = store_docs s
  ∧ vectorstore (delete_document s f e).1 = vectorstore s
  ∧ documents_metadata (delete_document s f e).1 = delete f (documents_metadata s).
Proof.
  intros Hi Hv Hok Hk. destruct (vectorstore s) as [l|] eqn:Hl; [clear Hv|done].
  pose proof (delete_document_memory s f e l Hi Hl) as Hm.
  destruct (docs_to_keep s f) as [|doc keep]; [done|]. rewrite Hok in Hm.
  unfold store_docs, object_docs. injection Hm as -> -> ->. by rewrite Hl.
Qed.

(** Objects are never removed nor, by [delete_document], changed. *)
Lemma delete_document_objects s f e l :
  l < length (faiss_objects s) →
  object_docs (delete_document s f e).1 l = object_docs s l.
Proof.
  intros Hlt.
  destruct (documents_metadata s !! f) as [info|] eqn:Hi;
    [|by rewrite delete_document_unknown].
  destruct (vectorstore s) as [l0|] eqn:Hl;
    [|by rewrite delete_document_no_store].
  pose proof (delete_document_memory s f e l0 (mk_is_Some _ _ Hi) Hl) as Hm.
  unfold object_docs.
  destruct (docs_to_keep s f) as [|doc keep]; [|destruct (faiss_ok e)];
    injection Hm as -> _ _; by rewrite ?lookup_app_l.
Qed.

Lemma delete_document_well_formed s f e :
  well_formed s → well_formed (delete_document s f e).1.
Proof.
  intros Hwf.
  destruct (documents_metadata s !! f) as [info|] eqn:Hi;
    [|by rewrite delete_document_unknown].
  destruct (vectorstore s) as [l0|] eqn:Hl;
    [|by rewrite delete_document_no_store].
  pose proof (delete_document_memory s f e l0 (mk_is_Some _ _ Hi) Hl) as Hm.
  unfold well_formed.
  destruct (docs_to_keep s f) as [|doc keep]; [|destruct (faiss_ok e)];
    injection Hm as -> -> _; intros l' [= <-];
    rewrite ?length_app; simpl; try lia. by apply Hwf.
Qed.

(** ** Counting tagged documents *)

Lemma tagged_inj f g doc : tagged f doc → tagged g doc → f = g.
Proof. unfold tagged. intros Hf Hg. rewrite Hf in Hg. by injection Hg. Qed.

Lemma tagged_tag f doc : tagged f (tag f doc).
Proof. unfold tagged, tag; simpl. apply lookup_insert_eq. Qed.

Lemma count_tagged_app f docs1 docs2 :
  count_tagged f (docs1 ++ docs2) = count_tagged f docs1 + count_tagged f docs2.
Proof. unfold count_tagged. by rewrite filter_app, length_app. Qed.

Lemma count_tagged_tag f docs : count_tagged f (tag f <$> docs) = length docs.
Proof.
  unfold count_tagged. induction docs as [|doc docs IH]; [done|].
  rewrite fmap_cons, filter_cons_True by apply tagged_tag. simpl. by rewrite IH.
Qed.

Lemma count_tagged_none f docs :
  (∀ doc, doc ∈ docs → ¬ tagged f doc) → count_tagged f docs = 0.
Proof.
  unfold count_tagged. induction docs as [|doc docs IH]; intros H; [done|].
  rewrite filter_cons_False by (apply H; left). apply IH.
  intros doc' Hin. apply H. by right.
Qed.

Lemma count_tagged_tag_other f g docs :
  f ≠ g → count_tagged g (tag f <$> docs) = 0.
Proof.
  intros Hne. apply count_tagged_none. intros doc' [doc [-> _]]%list_elem_of_fmap Hg.
  apply Hne. eapply tagged_inj; [apply tagged_tag|done].
Qed.

Lemma count_tagged_keep f g docs :
  f ≠ g →
  count_tagged g (filter (λ doc, ¬ tagged f doc) docs) = count_tagged g docs.
Proof.
  intros Hne. unfold count_tagged. induction docs as [|doc docs IH]; [done|].
  destruct (decide (tagged g doc)) as [Hg|Hg].
  - assert (¬ tagged f doc) by (intros Hf; apply Hne; by eapply tagged_inj).
    rewrite (filter_cons_True (λ doc, ¬ tagged f doc)) by done.
    rewrite !filter_cons_True by done. simpl. by rewrite IH.
  - rewrite (filter_cons_False (tagged g)) by done.
    destruct (decide (tagged f doc)).
    + rewrite filter_cons_False by naive_solver. done.
    + rewrite filter_cons_True by done. rewrite filter_cons_False by done. done.
Qed.

Lemma length_count_tagged f docs :
  length docs = count_tagged f docs + length (filter (λ doc, ¬ tagged f doc) docs).
Proof.
  unfold count_tagged. induction docs as [|doc docs IH]; [done|].
  destruct (decide (tagged f doc)).
  - rewrite filter_cons_True by done.
    rewrite (filter_cons_False (λ doc, ¬ tagged f doc)) by naive_solver.
    simpl. lia.
  - rewrite filter_cons_False by done.
    rewrite (filter_cons_True (λ doc, ¬ tagged f doc)) by done.
    simpl. lia.
Qed.

(** ** The ledger update *)

Lemma record_chunks_lookup f n m :
  record_chunks f n m !! f =
    Some (match m !! f with
          | Some info => mkDocInfo (chunks info + n) (filename info)
          | None => mkDocInfo n f
          end).
Proof.
  unfold record_chunks. destruct (m !! f) as [[c g]|]; by rewrite lookup_insert_eq.
Qed.

Lemma record_chunks_lookup_ne f g n m :
  f ≠ g → record_chunks f n m !! g = m !! g.
Proof.
  intros Hne. unfold record_chunks.
  destruct (m !! f) as [[c g']|]; by rewrite lookup_insert_ne.
Qed.

Lemma record_chunks_size f n m :
  size (record_chunks f n m) =
    match m !! f with Some _ => size m | None => S (size m) end.
Proof.
  unfold record_chunks. destruct (m !! f) as [[c g]|] eqn:Hf.
  - rewrite <- (insert_delete_id m f (mkDocInfo c g)) at 2 by done.
    rewrite <- insert_delete_eq.
    by rewrite !map_size_insert_None by apply lookup_delete_eq.
  - by apply map_size_insert_None.
Qed.

(** ** The ledger and the store agree *)

Lemma recorded_total_insert f info m :
  m !! f = None →
  recorded_total (<[f := info]> m) = chunks info + recorded_total m.
Proof.
  intros Hf. unfold recorded_total.
  apply (map_fold_insert_L (λ _ info acc, chunks info + acc)); [|done].
  intros. lia.
Qed.

(** With counts that match and no unrecorded document, the recorded
    counts add up to the number of stored documents. *)
Lemma recorded_total_length (m : gmap string DocInfo) : ∀ docs : list Document,
  (∀ name info, m !! name = Some info → chunks info = count_tagged name docs) →
  (∀ doc, doc ∈ docs → ∃ name, tagged name doc ∧ is_Some (m !! name)) →
  recorded_total m = length docs.
Proof.
  induction m as [|f info m Hf IH] using map_ind; intros docs Hcount Hrec.
  - destruct docs as [|doc docs]; [done|].
    destruct (Hrec doc) as (name & _ & [info Hi]); [left|].
    by rewrite lookup_empty in Hi.
  - rewrite recorded_total_insert by done.
    rewrite (length_count_tagged f docs).
    rewrite <- (Hcount f info) by apply lookup_insert_eq.
    f_equal. apply IH.
    + intros name info' Hi.
      assert (f ≠ name) by (intros ->; by rewrite Hf in Hi).
      rewrite count_tagged_keep by done.
      apply Hcount. by rewrite lookup_insert_ne.
    + intros doc [Hnf Hin]%list_elem_of_filter.
      destruct (Hrec doc Hin) as (name & Hn & Hs).
      exists name. split; [done|].
      rewrite lookup_insert_ne in Hs; [done|]. by intros ->.
Qed.

Lemma consistent_total s :
  counts_match s → all_recorded s →
  recorded_total (documents_metadata s) = get_document_count s.
Proof.
  intros Hc Hr. rewrite get_document_count_store_docs.
  by apply recorded_total_length.
Qed.

Lemma consistent_init : consistent init.
Proof.
  split; [|split].
  - by intros l.
  - intros name info Hi. simpl in Hi. by rewrite lookup_empty in Hi.
  - intros doc Hin. by apply elem_of_nil in Hin.
Qed.

(** [add_documents] keeps the agreement, whatever the collaborators do. *)
Lemma add_documents_consistent s docs f e :
  consistent s → consistent (add_documents s docs f e).1.2.
Proof.
  intros (Hwf & Hc & Hr).
  destruct (faiss_ok e) eqn:He; [|by rewrite add_documents_insert_fails].
  destruct (decide (docs = [])) as [->|Hdocs];
    [by rewrite (proj1 (add_documents_empty s f e))|].
  destruct (add_documents_inserted s docs f e Hwf He Hdocs) as (Hd & Hm & _ & _ & Hwf').
  split; [done|]. split.
  - intros name info. rewrite Hm, Hd, count_tagged_app.
    destruct (decide (f = name)) as [<-|Hne].
    + rewrite record_chunks_lookup, count_tagged_tag. intros [= <-].
      destruct (documents_metadata s !! f) as [info|] eqn:Hi; simpl.
      * by rewrite (Hc f info).
      * rewrite count_tagged_none; [done|]. intros doc Hin Hf.
        destruct (Hr doc Hin) as (name & Hn & [info Hs]).
        rewrite (tagged_inj _ _ _ Hn Hf) in Hs. by rewrite Hi in Hs.
    + rewrite record_chunks_lookup_ne, count_tagged_tag_other by done.
      intros Hi. rewrite (Hc name info Hi). lia.
  - intros doc. rewrite Hm, Hd. intros [Hin|Hin]%elem_of_app.
    + destruct (Hr doc Hin) as (name & Hn & Hs). exists name. split; [done|].
      destruct (decide (f = name)) as [<-|Hne].
      * by rewrite record_chunks_lookup.
      * by rewrite record_chunks_lookup_ne.
    + apply list_elem_of_fmap in Hin as [doc' [-> _]].
      exists f. split; [apply tagged_tag|]. by rewrite record_chunks_lookup.
Qed.

(** [delete_document] keeps the agreement unless its rebuild raises. *)
Lemma delete_document_consistent s f e :
  faiss_ok e = true ∨ docs_to_keep s f = [] →
  consistent s → consistent (delete_document s f e).1.
Proof.
  intros Hok (Hwf & Hc & Hr).
  destruct (documents_metadata s !! f) as [info|] eqn:Hi;
    [|by rewrite delete_document_unknown].
  destruct (vectorstore s) as [l|] eqn:Hl;
    [|by rewrite delete_document_no_store].
  destruct (delete_document_store s f e) as (Hd & Hm & _);
    [by eauto|by rewrite Hl|done|].
  split; [by apply delete_document_well_formed|]. split.
  - intros name info'. rewrite Hm, Hd. unfold docs_to_keep.
    intros [Hne Hs]%lookup_delete_Some.
    rewrite count_tagged_keep by done. by apply Hc.
  - intros doc. rewrite Hm, Hd. unfold docs_to_keep.
    intros [Hnf Hin]%list_elem_of_filter.
    destruct (Hr doc Hin) as (name & Hn & Hs). exists name. split; [done|].
    rewrite lookup_delete_ne; [done|]. by intros ->.
Qed.

Lemma step_consistent s c :
  rebuild_succeeds c → consistent s → consistent (step s c).
Proof.
  destruct c as [docs f e|f e]; simpl; intros Hc Hs.
  - by apply add_documents_consistent.
  - apply delete_document_consistent; by eauto.
Qed.

Lemma run_consistent cs : ∀ s,
  Forall rebuild_succeeds cs → consistent s → consistent (run s cs).
Proof.
  induction cs as [|c cs IH]; intros s Hcs Hs; [done|].
  apply Forall_cons in Hcs as [Hc Hcs]. simpl.
  apply IH; [done|]. by apply step_consistent.
Qed.

Lemma run_snoc s cs c : run s (cs ++ [c]) = step (run s cs) c.
Proof. unfold run. by rewrite foldl_app. Qed.

Lemma step_well_formed s c : well_formed s → well_formed (step s c).
Proof.
  destruct c as [docs f e|f e]; simpl; intros Hwf.
  - destruct (faiss_ok e) eqn:He; [|by rewrite add_documents_insert_fails].
  destruct (decide (docs = [])) as [->|Hdocs];
    [by rewrite (proj1 (add_documents_empty s f e))|].
    by destruct (add_documents_inserted s docs f e Hwf He Hdocs) as (_ & _ & _ & _ & ?).
  - by apply delete_document_well_formed.
Qed.

Lemma reachable_well_formed s : reachable s → well_formed s.
Proof.
  intros [cs ->]. induction cs as [|c cs IH] using rev_ind; [by intros l|].
  rewrite run_snoc. by apply step_well_formed.
Qed.

(** ** The ledger invariant *)

(** C1, as amended: in every state reached from the empty corpus by
    [add_documents] and [delete_document] calls none of whose rebuilds
    raises, each recorded chunk count is the number of stored fragments
    tagged with that name, and the recorded counts add up to
    [get_document_count].  Failing inserts and failing writes are allowed. *)
Theorem ledger_agrees_without_failed_rebuild (cs : list call) :
  Forall rebuild_succeeds cs → ledger_agrees (run init cs).
Proof.
  intros Hcs.
  destruct (run_consistent cs init Hcs consistent_init) as (_ & Hc & Hr).
  split; [exact Hc|]. by apply consistent_total.
Qed.

Lemma ledger_agrees_without_failed_rebuild_witness :
  Forall rebuild_succeeds
    (two_uploads ++ [DeleteDocument "a.txt" disk_full; DeleteDocument "b.txt" all_ok])
  ∧ ledger_agrees
      (run init (two_uploads ++
                 [DeleteDocument "a.txt" disk_full; DeleteDocument "b.txt" all_ok])).
Proof.
  assert (H : Forall rebuild_succeeds
                (two_uploads ++
                 [DeleteDocument "a.txt" disk_full; DeleteDocument "b.txt" all_ok])).
  { repeat constructor. }
  split; [exact H|]. apply (ledger_agrees_without_failed_rebuild _ H).
Defined.

(** C1 fails as stated: a [delete_document] whose rebuild raises has
    already dropped the ledger record and leaves the fragments in the
    store; after the next upload under that name the ledger says 1 chunk
    for ["a.txt"] where the store holds 3, and 2 chunks in all where
    [get_document_count] says 4. *)
Lemma ledger_disagrees_after_failed_rebuild :
  reachable (run init failed_rebuild_then_upload)
  ∧ ¬ ledger_agrees (run init failed_rebuild_then_upload)
  ∧ documents_metadata (run init failed_rebuild_then_upload) !! "a.txt"
    = Some (mkDocInfo 1 "a.txt")
  ∧ count_tagged "a.txt" (store_docs (run init failed_rebuild_then_upload)) = 3
  ∧ recorded_total (documents_metadata (run init failed_rebuild_then_upload)) = 2
  ∧ get_document_count (run init failed_rebuild_then_upload) = 4.
Proof.
  split; [by eexists|]. split; [|by vm_compute].
  intros [_ H]. vm_compute in H. discriminate H.
Qed.

(** ** A failed [delete_document] *)

(** Past the two checks the ledger record is removed, whatever the rest
    of the call does. *)
Lemma delete_document_ledger s f e :
  is_Some (documents_metadata s !! f) → vectorstore s ≠ None →
  documents_metadata (delete_document s f e).1 = delete f (documents_metadata s).
Proof.
  intros Hi Hv. destruct (vectorstore s) as [l|] eqn:Hl; [|done].
  pose proof (delete_document_memory s f e l Hi Hl) as Hm.
  destruct (docs_to_keep s f); [|destruct (faiss_ok e)]; by injection Hm.
Qed.

(** C2, as amended: when [delete_document] answers [False] because the
    name is unknown or the vector store is absent, the whole state (store,
    ledger, both files) is as before the call; and whenever it answers
    [False], the metadata file is as before the call. *)
Theorem delete_document_failure (s : VectorStoreService) (f : string) (e : env) :
  (delete_document s f e).2 = false →
  metadata_path (delete_document s f e).1 = metadata_path s
  ∧ (documents_metadata s !! f = None ∨ vectorstore s = None →
     (delete_document s f e).1 = s).
Proof.
  intros Hfail. split; [by apply delete_document_false_metadata_path|].
  intros [H|H].
  - by rewrite delete_document_unknown.
  - by rewrite delete_document_no_store.
Qed.

Lemma delete_document_failure_witness :
  (delete_document ledger_without_store "a.txt" all_ok).2 = false
  ∧ (delete_document ledger_without_store "a.txt" all_ok).1 = ledger_without_store
  ∧ (delete_document (run init two_uploads) "a.txt" disk_full).2 = false
  ∧ metadata_path (delete_document (run init two_uploads) "a.txt" disk_full).1
    = metadata_path (run init two_uploads).
Proof.
  assert (H1 : (delete_document ledger_without_store "a.txt" all_ok).2 = false)
    by reflexivity.
  assert (H2 : (delete_document (run init two_uploads) "a.txt" disk_full).2 = false)
    by reflexivity.
  split; [exact H1|]. split.
  - apply (delete_document_failure _ _ _ H1). by right.
  - split; [exact H2|]. apply (delete_document_failure _ _ _ H2).
Defined.

(** C2 fails as stated: with ["a.txt"] and ["b.txt"] uploaded, a
    [delete_document("a.txt")] whose rebuild raises answers [False], yet
    ["a.txt"] has left the ledger and [list_documents]. *)
Lemma failed_delete_changes_ledger :
  ¬ failure_keeps_state (run init two_uploads) "a.txt" faiss_down
  ∧ (delete_document (run init two_uploads) "a.txt" faiss_down).2 = false
  ∧ list_documents (run init two_uploads) = [("a.txt", 2); ("b.txt", 1)]
  ∧ list_documents (delete_document (run init two_uploads) "a.txt" faiss_down).1
    = [("b.txt", 1)].
Proof.
  split; [|by vm_compute]. intros H.
  assert (Hs : (delete_document (run init two_uploads) "a.txt" faiss_down).1
               = run init two_uploads) by (by apply H).
  apply (f_equal (λ s, documents_metadata s !! "a.txt")) in Hs.
  vm_compute in Hs. discriminate Hs.
Qed.

(** ** Retrievers *)

(** A retriever follows the service for as long as the service keeps the
    FAISS object the retriever was made from. *)
Lemma reflects_store_same_object faiss_search s k e r s' :
  get_retriever s k e = Return (Some r) →
  vectorstore s' = vectorstore s →
  reflects_store faiss_search r k s'.
Proof.
  unfold get_retriever. intros Hr Hv query e'.
  unfold invoke, similarity_search. rewrite Hv.
  destruct (vectorstore s) as [l|]; [|done].
  destruct (faiss_ok e); [|done]. by injection Hr as <-.
Qed.

Lemma add_documents_vectorstore s docs f e l :
  well_formed s → vectorstore s = Some l →
  vectorstore (add_documents s docs f e).1.2 = Some l.
Proof.
  intros Hwf Hl. destruct (faiss_ok e) eqn:He.
  - destruct (decide (docs = [])) as [->|Hdocs];
      [by rewrite (proj1 (add_documents_empty s f e))|].
    destruct (add_documents_inserted s docs f e Hwf He Hdocs) as (_ & _ & _ & H & _).
    by apply H.
  - by rewrite add_documents_insert_fails.
Qed.

(** C3, as amended: [get_retriever(k)] returns [None] exactly when the
    store is not ready; otherwise the retriever is bound to the FAISS object
    that is current when it is made.  It searches that object as it is when
    the retriever is called, so it follows [add_documents], which appends to
    the object in place.  [delete_document] puts a new object (or [None]) in
    place of the old one and leaves the old one as it was: a retriever made
    before the delete still answers from the contents before the delete. *)
Theorem get_retriever_bound_to_object
    (faiss_search : string → Z → list Document → list Document)
    (s : VectorStoreService) (k : Z) (e : env) :
  well_formed s →
  (get_retriever s k e = Return None ↔ is_ready s = false)
  ∧ ∀ r, get_retriever s k e = Return (Some r) →
      (∀ docs f e1, reflects_store faiss_search r k (add_documents s docs f e1).1.2)
      ∧ (∀ f e1 query e2,
           invoke faiss_search (delete_document s f e1).1 r query e2
           = similarity_search faiss_search s query k e2).
Proof.
  intros Hwf. split.
  - rewrite is_ready_false. unfold get_retriever.
    destruct (vectorstore s) as [l|]; [|done].
    destruct (faiss_ok e); split; done.
  - intros r Hr. split.
    + intros docs f e1. apply (reflects_store_same_object _ s k e); [done|].
      unfold get_retriever in Hr.
      destruct (vectorstore s) as [l|] eqn:Hl; [|done].
      by apply add_documents_vectorstore.
    + intros f e1 query e2. unfold get_retriever in Hr.
      unfold invoke, similarity_search.
      destruct (vectorstore s) as [l|] eqn:Hl; [|done].
      destruct (faiss_ok e); [|done]. injection Hr as <-. simpl.
      by rewrite delete_document_objects by by apply Hwf.
Qed.

Lemma get_retriever_bound_to_object_witness :
  well_formed (run init two_uploads)
  ∧ get_retriever (run init two_uploads) 4 all_ok = Return (Some (mkRetriever 0 4))
  ∧ invoke first_k (delete_document (run init two_uploads) "a.txt" all_ok).1
      (mkRetriever 0 4) "q" all_ok
    = similarity_search first_k (run init two_uploads) "q" 4 all_ok.
Proof.
  assert (Hwf : well_formed (run init two_uploads)).
  { intros l. vm_compute. intros [= <-]. lia. }
  assert (Hr : get_retriever (run init two_uploads) 4 all_ok
               = Return (Some (mkRetriever 0 4))) by reflexivity.
  split; [exact Hwf|]. split; [exact Hr|].
  apply (get_retriever_bound_to_object first_k _ 4 all_ok Hwf), Hr.
Defined.

(** C3 fails as stated: with ["a.txt"] (two chunks) and ["b.txt"] (one
    chunk) uploaded, a retriever made before [delete_document("a.txt")]
    and called after it still returns the chunks of ["a.txt"], which a
    search of the store no longer finds. *)
Lemma retriever_outlives_delete :
  get_retriever (run init two_uploads) 4 all_ok = Return (Some (mkRetriever 0 4))
  ∧ (delete_document (run init two_uploads) "a.txt" all_ok).2 = true
  ∧ ¬ reflects_store first_k (mkRetriever 0 4) 4
        (delete_document (run init two_uploads) "a.txt" all_ok).1
  ∧ invoke first_k (delete_document (run init two_uploads) "a.txt" all_ok).1
      (mkRetriever 0 4) "q" all_ok
    = Return ((tag "a.txt" <$> [plain "x"; plain "y"]) ++ [tag "b.txt" (plain "z")])
  ∧ similarity_search first_k (delete_document (run init two_uploads) "a.txt" all_ok).1
      "q" 4 all_ok
    = Return [tag "b.txt" (plain "z")].
Proof.
  split; [reflexivity|]. split; [reflexivity|]. split; [|by vm_compute].
  intros H. specialize (H "q" all_ok). vm_compute in H. discriminate H.
Qed.

(** ** What [delete_document] removes *)

Lemma elem_of_list_documents s f n :
  (f, n) ∈ list_documents s ↔
  ∃ info, documents_metadata s !! f = Some info ∧ chunks info = n.
Proof.
  unfold list_documents. rewrite list_elem_of_fmap. split.
  - intros ([g info] & [= -> ->] & Hin%elem_of_map_to_list). by exists info.
  - intros (info & Hi & <-). exists (f, info). split; [done|].
    by apply elem_of_map_to_list.
Qed.

(** C4, as amended: whenever [delete_document(name)] answers [True],
    [list_documents()] does not contain the name afterwards; and when the
    count recorded for the name was the number of stored fragments with that
    name, [total_chunks] has gone down by exactly that count. *)
Theorem delete_document_removes (s : VectorStoreService) (f : string) (e : env) :
  (delete_document s f e).2 = true →
  (∀ n, (f, n) ∉ list_documents (delete_document s f e).1)
  ∧ (∀ info, documents_metadata s !! f = Some info →
       chunks info = count_tagged f (store_docs s) →
       total_chunks (get_stats s)
       = total_chunks (get_stats (delete_document s f e).1) + chunks info).
Proof.
  intros (Hi & Hv & Hok)%delete_document_true.
  destruct (delete_document_store s f e Hi Hv Hok) as (Hd & Hm & _). split.
  - intros n (info' & Hs & _)%elem_of_list_documents.
    by rewrite Hm, lookup_delete_eq in Hs.
  - intros info _ Hcount. simpl.
    rewrite !get_document_count_store_docs, Hd, Hcount.
    unfold docs_to_keep. rewrite (length_count_tagged f (store_docs s)) at 1. lia.
Qed.

Lemma delete_document_removes_witness :
  (∀ n, ("a.txt", n) ∉
        list_documents (delete_document (run init two_uploads) "a.txt" all_ok).1)
  ∧ total_chunks (get_stats (run init two_uploads))
    = total_chunks (get_stats (delete_document (run init two_uploads) "a.txt" all_ok).1)
      + 2.
Proof.
  assert (Hok : (delete_document (run init two_uploads) "a.txt" all_ok).2 = true)
    by (by vm_compute).
  destruct (delete_document_removes (run init two_uploads) "a.txt" all_ok Hok)
    as [H1 H2].
  split; [exact H1|]. apply (H2 (mkDocInfo 2 "a.txt")); by vm_compute.
Defined.

(** C4 fails as stated, in two ways.  With a record in the ledger and no
    vector store, the call returns at the store check and the name stays in
    [list_documents].  And after a rebuild that raised and a new upload (the
    state [run init failed_rebuild_then_upload]), a successful delete of
    ["a.txt"] takes [total_chunks] from 4 to 1 where the ledger recorded 1
    chunk. *)
Lemma delete_leaves_name_or_wrong_total :
  ¬ delete_removes ledger_without_store "a.txt" all_ok
  ∧ ("a.txt", 1) ∈ list_documents (delete_document ledger_without_store "a.txt" all_ok).1
  ∧ ¬ delete_removes (run init failed_rebuild_then_upload) "a.txt" all_ok
  ∧ (delete_document (run init failed_rebuild_then_upload) "a.txt" all_ok).2 = true
  ∧ total_chunks (get_stats (run init failed_rebuild_then_upload)) = 4
  ∧ total_chunks
      (get_stats (delete_document (run init failed_rebuild_then_upload) "a.txt" all_ok).1)
    = 1.
Proof.
  assert (Hin : ("a.txt", 1) ∈
                list_documents (delete_document ledger_without_store "a.txt" all_ok).1).
  { apply elem_of_list_documents. exists (mkDocInfo 1 "a.txt"). by vm_compute. }
  split; [|split; [exact Hin|split; [|by vm_compute]]].
  - intros [H _]. by apply (H 1).
  - intros [_ H]. specialize (H (mkDocInfo 1 "a.txt")).
    vm_compute in H. specialize (H eq_refl). discriminate H.
Qed.

(** ** What [add_documents] adds *)

(** C5, as amended: an [add_documents] of a non-empty batch of [n]
    fragments whose insert and index write succeed returns [n] and raises
    [total_chunks] by [n]; under a name not in the ledger it raises
    [total_documents] by one and records [n] chunks, under a name in the
    ledger it leaves [total_documents] and adds [n] to the recorded count. *)
Theorem add_documents_stats (s : VectorStoreService) (docs : list Document)
    (f : string) (e : env) :
  well_formed s → docs ≠ [] → faiss_ok e = true → save_local e = IoOk →
  (add_documents s docs f e).2 = Return (length docs)
  ∧ total_chunks (get_stats (add_documents s docs f e).1.2)
    = total_chunks (get_stats s) + length docs
  ∧ match documents_metadata s !! f with
    | None =>
        total_documents (get_stats (add_documents s docs f e).1.2)
        = S (total_documents (get_stats s))
        ∧ documents_metadata (add_documents s docs f e).1.2 !! f
          = Some (mkDocInfo (length docs) f)
    | Some info =>
        total_documents (get_stats (add_documents s docs f e).1.2)
        = total_documents (get_stats s)
        ∧ documents_metadata (add_documents s docs f e).1.2 !! f
          = Some (mkDocInfo (chunks info + length docs) (filename info))
    end.
Proof.
  intros Hwf Hdocs He Hsave.
  destruct (add_documents_inserted s docs f e Hwf He Hdocs) as (Hd & Hm & Hv & _ & _).
  split; [|split].
  - by apply add_documents_returns.
  - simpl. rewrite !get_document_count_store_docs, Hd, length_app, length_fmap. done.
  - simpl. rewrite Hm, record_chunks_size, record_chunks_lookup.
    by destruct (documents_metadata s !! f).
Qed.

Lemma add_documents_stats_witness :
  (add_documents (run init two_uploads) [plain "w"] "a.txt" all_ok).2 = Return 1
  ∧ total_chunks (get_stats (add_documents (run init two_uploads) [plain "w"] "a.txt" all_ok).1.2)
    = total_chunks (get_stats (run init two_uploads)) + 1.
Proof.
  assert (Hwf : well_formed (run init two_uploads)).
  { intros l. vm_compute. intros [= <-]. lia. }
  assert (Hdocs : [plain "w"] ≠ []) by discriminate.
  destruct (add_documents_stats (run init two_uploads) [plain "w"] "a.txt" all_ok
              Hwf Hdocs eq_refl eq_refl) as (H1 & H2 & _).
  split; [exact H1|exact H2].
Defined.

(** C5 fails as stated.  An upload of no fragment at all, with every
    collaborator working, does not return [0]: on the empty corpus
    [FAISS.from_documents] raises, nothing is ingested and no document is
    recorded.  And a batch whose index write fails is in the store and the
    ledger, but the call raises instead of returning its size. *)
Lemma empty_batch_is_not_ingested :
  (add_documents init [] "a.txt" all_ok).2 = Raise IndexError
  ∧ (add_documents init [] "a.txt" all_ok).2 ≠ Return (length ([] : list Document))
  ∧ total_documents (get_stats (add_documents init [] "a.txt" all_ok).1.2)
    = total_documents (get_stats init)
  ∧ documents_metadata (add_documents init [] "a.txt" all_ok).1.2 !! "a.txt" = None
  ∧ (add_documents init [plain "x"] "a.txt" disk_full).2 = Raise PersistError.
Proof. repeat split; try reflexivity. discriminate. Qed.

(** ** The query short-circuit *)

(** C6: when the vector store is not ready, [query] returns the fixed
    answer, no sources and the question as given; it makes no generation
    request and does not raise, whatever the arguments, the settings and
    the collaborators. *)
Theorem query_not_ready (float : Type)
    (settings_temperature : option float) (settings_max_tokens : option Z)
    (faiss_search : string → Z → list Document → list Document)
    (generate : LlmCall float → result string)
    (s : VectorStoreService) (question : string) (k : Z)
    (temperature : option float) (max_tokens : option Z)
    (e_retriever e_search : env) (groq_ok : bool) :
  is_ready s = false →
  query float settings_temperature settings_max_tokens faiss_search generate
    s question k temperature max_tokens e_retriever e_search groq_ok
  = (Return (mkQueryResult
               "No documents have been uploaded yet. Please upload documents first."
               [] question), []).
Proof. intros Hs. unfold query. by rewrite Hs. Qed.

Lemma query_not_ready_witness :
  is_ready init = false
  ∧ query Z (Some 7%Z) (Some 1024%Z) first_k (λ _, Raise LlmError)
      init "What is FAISS?" 4 None None faiss_down faiss_down false
    = (Return (mkQueryResult
                 "No documents have been uploaded yet. Please upload documents first."
                 [] "What is FAISS?"), []).
Proof.
  assert (H : is_ready init = false) by reflexivity.
  split; [exact H|]. apply (query_not_ready Z _ _ _ _ _ _ _ _ _ _ _ _ H).
Defined.

(** ** Source attributions *)

Lemma str_prefix_length n : ∀ s,
  n ≤ String.length s → String.length (str_prefix n s) = n.
Proof.
  unfold str_prefix. induction n as [|n IH]; intros [|c s]; simpl; try lia.
  intros H. rewrite IH; lia.
Qed.

Lemma str_prefix_is_prefix n : ∀ s, ∃ rest, s = str_prefix n s +:+ rest.
Proof.
  unfold str_prefix. induction n as [|n IH]; intros [|c s]; simpl.
  - by exists "".
  - by exists (String c s).
  - by exists "".
  - destruct (IH s) as [rest Hr]. exists rest.
    change (String c s = String c (String.substring 0 n s +:+ rest)).
    f_equal. exact Hr.
Qed.

Lemma format_source_tag f doc : format_source (tag f doc) = format_source doc.
Proof.
  unfold format_source, tag; simpl. by rewrite !lookup_insert_ne.
Qed.

(** C7, as amended: for every retrieved fragment the attribution has, as
    [content], the full text when it has at most 500 characters and
    otherwise its first 500 characters followed by ["..."]; as [source], the
    value under the key ['source'] of the fragment's metadata (["Unknown"]
    without one), whatever name the fragment was ingested under; and a [page]
    exactly when the metadata has the key ['page'], with that value. *)
Theorem format_sources_attribution (docs : list Document) (i : nat) (doc : Document) :
  docs !! i = Some doc →
  ∃ info, _format_sources docs !! i = Some info
    ∧ (String.length (page_content doc) ≤ 500 → content info = page_content doc)
    ∧ (500 < String.length (page_content doc) →
       content info = str_prefix 500 (page_content doc) +:+ "..."
       ∧ String.length (str_prefix 500 (page_content doc)) = 500
       ∧ ∃ rest, page_content doc = str_prefix 500 (page_content doc) +:+ rest)
    ∧ source info = default (MStr "Unknown") (metadata doc !! "source")
    ∧ (∀ f, _format_sources (tag f <$> docs) !! i = Some info)
    ∧ page info = metadata doc !! "page"
    ∧ (is_Some (page info) ↔ is_Some (metadata doc !! "page")).
Proof.
  intros Hi. exists (format_source doc). split; [|split; [|split; [|split; [|split]]]].
  - unfold _format_sources. by rewrite list_lookup_fmap, Hi.
  - intros Hle. unfold format_source; simpl.
    rewrite bool_decide_eq_false_2; [done|lia].
  - intros Hlt. unfold format_source; simpl.
    rewrite bool_decide_eq_true_2 by done.
    split; [done|]. split; [apply str_prefix_length; lia|apply str_prefix_is_prefix].
  - done.
  - intros f. unfold _format_sources.
    rewrite !list_lookup_fmap, Hi. simpl. by rewrite format_source_tag.
  - done.
Qed.

Lemma format_sources_attribution_witness :
  ∃ info, _format_sources [tag "a.txt" loaded_chunk] !! 0 = Some info
    ∧ content info = "hello"
    ∧ source info = MStr "data/documents/a.txt"
    ∧ page info = None.
Proof.
  destruct (format_sources_attribution [tag "a.txt" loaded_chunk] 0 _ eq_refl)
    as (info & H1 & H2 & _ & H4 & _ & H6 & _).
  exists info. split; [exact H1|]. split; [apply H2; vm_compute; lia|].
  split; [exact H4|exact H6].
Defined.

(** C7 fails as stated.  A chunk of ["a.txt"], ingested under that name,
    is attributed to the path it was loaded from, and a chunk without the
    key ['source'] to ["Unknown"]: the name given to [add_documents] is
    stored under ['filename'], which [_format_sources] does not read.  And a
    text longer than 500 characters comes back whole when it is its first
    500 characters followed by three dots. *)
Lemma source_is_not_ingest_name :
  store_docs (add_documents init [loaded_chunk] "a.txt" all_ok).1.2
    = [tag "a.txt" loaded_chunk]
  ∧ ¬ attributed_to "a.txt" (format_source (tag "a.txt" loaded_chunk))
  ∧ source (format_source (tag "a.txt" loaded_chunk)) = MStr "data/documents/a.txt"
  ∧ source (format_source (tag "a.txt" (plain "x"))) = MStr "Unknown"
  ∧ 500 < String.length dotted_text
  ∧ content (format_source (plain dotted_text)) = dotted_text.
Proof.
  split; [by vm_compute|]. split; [|split; [by vm_compute|split; [by vm_compute|]]].
  - unfold attributed_to. vm_compute. discriminate.
  - split; [vm_compute; lia|by vm_compute].
Qed.

(** ** The empty store *)

Lemma record_chunks_nonempty f n m : record_chunks f n m ≠ ∅.
Proof.
  intros H. pose proof (record_chunks_lookup f n m) as Hl.
  by rewrite H, lookup_empty in Hl.
Qed.

Lemma step_cleared_or_populated s c :
  well_formed s → cleared_or_populated s → cleared_or_populated (step s c).
Proof.
  intros Hwf Hs. destruct c as [docs f e|f e]; simpl.
  - destruct (faiss_ok e) eqn:He; [|by rewrite add_documents_insert_fails].
  destruct (decide (docs = [])) as [->|Hdocs];
    [by rewrite (proj1 (add_documents_empty s f e))|].
    destruct (add_documents_inserted s docs f e Hwf He Hdocs) as (_ & Hm & _).
    intros Hempty. rewrite Hm in Hempty. by apply record_chunks_nonempty in Hempty.
  - destruct (documents_metadata s !! f) as [info|] eqn:Hi;
      [|by rewrite delete_document_unknown].
    destruct (vectorstore s) as [l|] eqn:Hl;
      [|by rewrite delete_document_no_store].
    destruct (decide (faiss_ok e = true ∨ docs_to_keep s f = [])) as [Hok|Hok].
    + destruct (delete_document_store s f e) as (Hd & _ & Hnone);
        [by eauto|by rewrite Hl|done|].
      intros _. destruct (docs_to_keep s f) eqn:Hk; [left; by apply Hnone|].
      right. by rewrite Hd.
    + destruct (delete_document_rebuild_raises s f e) as (Hd & _);
        [by eauto|by rewrite Hl|by destruct (faiss_ok e); naive_solver|naive_solver|].
      intros _. right. rewrite Hd. intros Hnil. apply Hok. right.
      unfold docs_to_keep. by rewrite Hnil.
Qed.

Lemma run_cleared_or_populated cs : cleared_or_populated (run init cs).
Proof.
  induction cs as [|c cs IH] using rev_ind; [by left|].
  rewrite run_snoc. apply step_cleared_or_populated; [|done].
  apply reachable_well_formed. by eexists.
Qed.

(** C8: in the state after any sequence of calls from the empty corpus
    (the empty sequence included) that leaves no record in the ledger and
    no fragment in the store, [is_ready()] is [False] and
    [similarity_search] returns the empty list, without raising, for every
    query and [k].  When no rebuild raised along the way, an empty ledger is
    enough: the store is then empty as well. *)
Theorem empty_store_not_ready
    (faiss_search : string → Z → list Document → list Document) (cs : list call) :
  documents_metadata (run init cs) = ∅ →
  get_document_count (run init cs) = 0 ∨ Forall rebuild_succeeds cs →
  is_ready (run init cs) = false
  ∧ ∀ query k e, similarity_search faiss_search (run init cs) query k e = Return [].
Proof.
  intros Hempty Hstore.
  assert (Hnone : vectorstore (run init cs) = None).
  { destruct (run_cleared_or_populated cs Hempty) as [H|H]; [done|].
    destruct (store_docs (run init cs)) as [|doc docs] eqn:Hdocs; [done|].
    destruct Hstore as [Hcount|Hcs].
    - by rewrite get_document_count_store_docs, Hdocs in Hcount.
    - destruct (run_consistent cs init Hcs consistent_init) as (_ & _ & Hr).
      destruct (Hr doc) as (name & _ & [info Hi]); [rewrite Hdocs; left|].
      by rewrite Hempty, lookup_empty in Hi. }
  split; [by apply is_ready_false|].
  intros query k e. unfold similarity_search. by rewrite Hnone.
Qed.

Lemma empty_store_not_ready_witness :
  is_ready (run init (two_uploads ++
                      [DeleteDocument "a.txt" all_ok; DeleteDocument "b.txt" all_ok]))
  = false
  ∧ similarity_search first_k
      (run init (two_uploads ++
                 [DeleteDocument "a.txt" all_ok; DeleteDocument "b.txt" all_ok]))
      "q" 4 all_ok
    = Return [].
Proof.
  destruct (empty_store_not_ready first_k
              (two_uploads ++
               [DeleteDocument "a.txt" all_ok; DeleteDocument "b.txt" all_ok]))
    as [H1 H2].
  - by vm_compute.
  - left. by vm_compute.
  - split; [exact H1|apply H2].
Defined.

(** ** A record without a store *)

(** C9: with the name in the ledger and no vector store,
    [delete_document(name)] answers [False] and changes nothing, so the name
    is still in [list_documents()]; repeating the call, with whatever
    collaborators, never removes the record. *)
Theorem delete_document_keeps_stale_record (s : VectorStoreService) (f : string)
    (info : DocInfo) :
  documents_metadata s !! f = Some info → vectorstore s = None →
  (∀ e, delete_document s f e = (s, false))
  ∧ (∀ e, (f, chunks info) ∈ list_documents (delete_document s f e).1)
  ∧ (∀ es : list env, foldl (λ s e, (delete_document s f e).1) s es = s).
Proof.
  intros Hi Hv.
  assert (H : ∀ e, delete_document s f e = (s, false))
    by (intros e; by apply delete_document_no_store).
  split; [exact H|]. split.
  - intros e. rewrite H. apply elem_of_list_documents. by exists info.
  - intros es. induction es as [|e es IH]; [done|]. simpl. by rewrite H.
Qed.

Lemma delete_document_keeps_stale_record_witness :
  delete_document ledger_without_store "a.txt" all_ok = (ledger_without_store, false)
  ∧ ("a.txt", 1) ∈ list_documents (delete_document ledger_without_store "a.txt" all_ok).1.
Proof.
  destruct (delete_document_keeps_stale_record ledger_without_store "a.txt"
              (mkDocInfo 1 "a.txt")) as (H1 & H2 & _).
  - by vm_compute.
  - reflexivity.
  - split; [apply H1|apply H2].
Defined.

(** ** The caller's documents *)

(** C10: [add_documents] leaves every document of the list it was given
    with the key ['filename'] set to the given name (added or overwritten),
    text and other keys untouched, whether or not the insert or a write that
    follows raises. *)
Theorem add_documents_tags_arguments (s : VectorStoreService) (docs : list Document)
    (f : string) (e : env) :
  length (add_documents s docs f e).1.1 = length docs
  ∧ ∀ i doc, docs !! i = Some doc →
      ∃ doc', (add_documents s docs f e).1.1 !! i = Some doc'
        ∧ page_content doc' = page_content doc
        ∧ metadata doc' !! "filename" = Some (MStr f)
        ∧ ∀ key, key ≠ "filename" → metadata doc' !! key = metadata doc !! key.
Proof.
  assert (H : (add_documents s docs f e).1.1 = tag f <$> docs)
    by apply add_documents_arguments.
  rewrite H. split; [by rewrite length_fmap|].
  intros i doc Hi. exists (tag f doc). rewrite list_lookup_fmap, Hi.
  split; [done|]. split; [done|]. split; [apply lookup_insert_eq|].
  intros key Hne. unfold tag; simpl. by rewrite lookup_insert_ne.
Qed.

Lemma add_documents_tags_arguments_witness :
  ∃ doc', (add_documents init [loaded_chunk] "a.txt" faiss_down).1.1 !! 0 = Some doc'
    ∧ (add_documents init [loaded_chunk] "a.txt" faiss_down).2 = Raise FaissError
    ∧ metadata doc' !! "filename" = Some (MStr "a.txt")
    ∧ metadata doc' !! "source" = metadata loaded_chunk !! "source".
Proof.
  destruct (add_documents_tags_arguments init [loaded_chunk] "a.txt" faiss_down)
    as [_ H].
  destruct (H 0 loaded_chunk eq_refl) as (doc' & H1 & _ & H3 & H4).
  exists doc'. split; [exact H1|]. split; [reflexivity|]. split; [exact H3|].
  apply H4. discriminate.
Defined.


(** * Further properties of the vector store service *)

(** ** How [add_documents] ends *)

Lemma add_documents_result (s : VectorStoreService) (docs : list Document)
    (f : string) (e : env) :
  ((add_documents s docs f e).2 = Return (length docs)
   ↔ docs ≠ [] ∧ faiss_ok e = true ∧ save_local e = IoOk)
  ∧ ((add_documents s docs f e).2 = Raise FaissError ↔ faiss_ok e = false)
  ∧ ((add_documents s docs f e).2 = Raise PersistError
     ↔ docs ≠ [] ∧ faiss_ok e = true ∧ save_local e ≠ IoOk)
  ∧ (docs = [] → faiss_ok e = true →
     (add_documents s docs f e).2
     = Raise match vectorstore s with None => IndexError | Some _ => ValueError end)
  ∧ (∀ n, (add_documents s docs f e).2 = Return n → n = length docs ∧ 0 < n).
Proof.
  destruct (faiss_ok e) eqn:He.
  2:{ rewrite add_documents_insert_fails by done. simpl.
      repeat split; intros; destruct_and?; simplify_eq; done. }
  destruct (decide (docs = [])) as [->|Hne].
  { rewrite (proj2 (add_documents_empty s f e)), He.
    destruct (vectorstore s);
      repeat split; intros; destruct_and?; simplify_eq; done. }
  destruct (save_local e) as [|partial] eqn:Hsave.
  - rewrite add_documents_returns by done.
    repeat split; intros; destruct_and?; simplify_eq; try done.
    destruct docs; [done|simpl; lia].
  - rewrite (proj1 (add_documents_write_raises s docs f e partial He Hne Hsave)).
    repeat split; intros; destruct_and?; simplify_eq; done.
Qed.

(** [add_documents] returns the number of documents exactly when the
    batch is not empty and the insert and the index write succeed; it raises
    the FAISS error exactly when the embedding or FAISS fails, and the write
    error exactly when a non-empty batch is inserted and the index write
    fails.  An empty batch on working collaborators raises [IndexError]
    without a store and [ValueError] with one, so the call never returns
    [0].  The metadata write plays no part: its failure is swallowed by
    [_save_metadata]. *)
Theorem add_documents_outcome (s : VectorStoreService) (docs : list Document)
    (f : string) (e : env) :
  ((add_documents s docs f e).2 = Return (length docs)
   ↔ docs ≠ [] ∧ faiss_ok e = true ∧ save_local e = IoOk)
  ∧ ((add_documents s docs f e).2 = Raise FaissError ↔ faiss_ok e = false)
  ∧ ((add_documents s docs f e).2 = Raise PersistError
     ↔ docs ≠ [] ∧ faiss_ok e = true ∧ save_local e ≠ IoOk)
  ∧ (docs = [] → faiss_ok e = true →
     (add_documents s docs f e).2
     = Raise match vectorstore s with None => IndexError | Some _ => ValueError end)
  ∧ (∀ n, (add_documents s docs f e).2 = Return n → n = length docs ∧ 0 < n).
Proof. exact (add_documents_result s docs f e). Qed.

(** When the insert of a non-empty batch succeeds and the index write
    raises, [add_documents] raises, but the documents are in the store and
    in the ledger all the same: [total_chunks] has gone up by their number
    and the name is recorded.  The metadata file is not written. *)
Theorem add_documents_raises_after_insert (s : VectorStoreService)
    (docs : list Document) (f : string) (e : env) (partial : bool) :
  well_formed s → docs ≠ [] → faiss_ok e = true → save_local e = IoErr partial →
  (add_documents s docs f e).2 = Raise PersistError
  ∧ store_docs (add_documents s docs f e).1.2 = store_docs s ++ (tag f <$> docs)
  ∧ total_chunks (get_stats (add_documents s docs f e).1.2)
    = total_chunks (get_stats s) + length docs
  ∧ is_Some (documents_metadata (add_documents s docs f e).1.2 !! f)
  ∧ metadata_path (add_documents s docs f e).1.2 = metadata_path s.
Proof.
  intros Hwf Hdocs He Hsave.
  destruct (add_documents_inserted s docs f e Hwf He Hdocs) as (Hd & Hm & _).
  destruct (add_documents_write_raises s docs f e partial He Hdocs Hsave) as [Hr Hp].
  split; [done|]. split; [done|]. split; [|split; [|done]].
  - simpl. by rewrite !get_document_count_store_docs, Hd, length_app, length_fmap.
  - by rewrite Hm, record_chunks_lookup.
Qed.

Lemma add_documents_raises_after_insert_witness :
  (add_documents (run init two_uploads) [plain "w"] "c.txt" disk_full).2
  = Raise PersistError
  ∧ total_chunks (get_stats (add_documents (run init two_uploads) [plain "w"]
                               "c.txt" disk_full).1.2)
    = total_chunks (get_stats (run init two_uploads)) + 1.
Proof.
  assert (Hwf : well_formed (run init two_uploads)).
  { intros l. vm_compute. intros [= <-]. lia. }
  assert (Hdocs : [plain "w"] ≠ []) by discriminate.
  destruct (add_documents_raises_after_insert (run init two_uploads) [plain "w"]
              "c.txt" disk_full false Hwf Hdocs eq_refl eq_refl) as (H1 & _ & H3 & _).
  split; [exact H1|exact H3].
Defined.

(** A metadata write that fails goes unnoticed: [add_documents] of a
    non-empty batch returns the number of documents, the store, the ledger
    and the index file have the new documents, and the metadata file is left
    without them (as it was, or half-written). *)
Theorem add_documents_swallows_metadata_failure (s : VectorStoreService)
    (docs : list Document) (f : string) (e : env) (partial : bool) :
  well_formed s → docs ≠ [] → faiss_ok e = true → save_local e = IoOk →
  json_dump e = IoErr partial →
  (add_documents s docs f e).2 = Return (length docs)
  ∧ index_path (add_documents s docs f e).1.2
    = Stored (store_docs s ++ (tag f <$> docs))
  ∧ is_Some (documents_metadata (add_documents s docs f e).1.2 !! f)
  ∧ metadata_path (add_documents s docs f e).1.2
    = after_failed_write partial (metadata_path s).
Proof.
  intros Hwf Hdocs He Hsave Hjson.
  destruct (add_documents_inserted s docs f e Hwf He Hdocs) as (Hd & Hm & _).
  split; [by apply add_documents_returns|].
  split; [|split; [by rewrite Hm, record_chunks_lookup|]].
  - rewrite <- Hd. clear Hd Hm. destruct docs as [|doc docs]; [done|].
    rewrite add_documents_unfold by done. cbv zeta.
    unfold _save_vectorstore, _save_metadata, new_faiss, store_docs.
    destruct (vectorstore s) eqn:Hv; simpl;
      by repeat (progress (rewrite ?Hv, ?Hsave, ?Hjson; simpl)).
  - destruct docs as [|doc docs]; [done|].
    rewrite add_documents_unfold by done. cbv zeta.
    unfold _save_vectorstore, _save_metadata, new_faiss.
    destruct (vectorstore s) eqn:Hv; simpl;
      by repeat (progress (rewrite ?Hv, ?Hsave, ?Hjson; simpl)).
Qed.

Lemma add_documents_swallows_metadata_failure_witness :
  (add_documents (run init two_uploads) [plain "w"] "c.txt"
     (mkEnv true IoOk IoOk (IoErr false))).2 = Return 1
  ∧ metadata_path (add_documents (run init two_uploads) [plain "w"] "c.txt"
                     (mkEnv true IoOk IoOk (IoErr false))).1.2
    = metadata_path (run init two_uploads).
Proof.
  assert (Hwf : well_formed (run init two_uploads)).
  { intros l. vm_compute. intros [= <-]. lia. }
  assert (Hdocs : [plain "w"] ≠ []) by discriminate.
  destruct (add_documents_swallows_metadata_failure (run init two_uploads)
              [plain "w"] "c.txt" (mkEnv true IoOk IoOk (IoErr false)) false
              Hwf Hdocs eq_refl eq_refl eq_refl) as (H1 & _ & _ & H4).
  split; [exact H1|exact H4].
Defined.

(** ** What a call leaves alone *)

Lemma filter_tagged_keep f g (docs : list Document) :
  f ≠ g →
  filter (tagged g) (filter (λ doc, ¬ tagged f doc) docs) = filter (tagged g) docs.
Proof.
  intros Hne. induction docs as [|doc docs IH]; [done|].
  destruct (decide (tagged g doc)) as [Hg|Hg].
  - assert (¬ tagged f doc) by (intros Hf; apply Hne; by eapply tagged_inj).
    rewrite (filter_cons_True (λ doc, ¬ tagged f doc)) by done.
    rewrite !filter_cons_True by done. by rewrite IH.
  - rewrite (filter_cons_False (tagged g)) by done.
    destruct (decide (tagged f doc)).
    + by rewrite filter_cons_False by naive_solver.
    + rewrite filter_cons_True by done. by rewrite filter_cons_False by done.
Qed.

Lemma filter_tagged_tag_other f g (docs : list Document) :
  f ≠ g → filter (tagged g) (tag f <$> docs) = [].
Proof.
  intros Hne. induction docs as [|doc docs IH]; [done|].
  rewrite fmap_cons, filter_cons_False; [done|].
  intros Hg. apply Hne. eapply tagged_inj; [apply tagged_tag|done].
Qed.

(** Whatever the collaborators do, [add_documents] under the name [f]
    keeps every stored document where it is (the old contents are a prefix
    of the new), keeps the FAISS object the service refers to, and leaves
    the ledger records and the stored fragments of every other name as they
    were. *)
Theorem add_documents_frame (s : VectorStoreService) (docs : list Document)
    (f : string) (e : env) :
  well_formed s →
  store_docs s `prefix_of` store_docs (add_documents s docs f e).1.2
  ∧ (∀ l, vectorstore s = Some l → vectorstore (add_documents s docs f e).1.2 = Some l)
  ∧ ∀ g, f ≠ g →
      documents_metadata (add_documents s docs f e).1.2 !! g = documents_metadata s !! g
      ∧ filter (tagged g) (store_docs (add_documents s docs f e).1.2)
        = filter (tagged g) (store_docs s).
Proof.
  intros Hwf. destruct (faiss_ok e) eqn:He.
  - destruct (decide (docs = [])) as [->|Hdocs];
      [by rewrite (proj1 (add_documents_empty s f e))|].
    destruct (add_documents_inserted s docs f e Hwf He Hdocs) as (Hd & Hm & _ & Hv & _).
    rewrite Hd, Hm. split; [by apply prefix_app_r|]. split; [done|].
    intros g Hne. split; [by apply record_chunks_lookup_ne|].
    by rewrite filter_app, filter_tagged_tag_other, app_nil_r.
  - rewrite add_documents_insert_fails by done. done.
Qed.

Lemma add_documents_frame_witness :
  documents_metadata
    (add_documents (run init two_uploads) [plain "w"] "a.txt" disk_full).1.2 !! "b.txt"
  = documents_metadata (run init two_uploads) !! "b.txt".
Proof.
  assert (Hwf : well_formed (run init two_uploads)).
  { intros l. vm_compute. intros [= <-]. lia. }
  destruct (add_documents_frame (run init two_uploads) [plain "w"] "a.txt" disk_full Hwf)
    as (_ & _ & H).
  apply (H "b.txt"). discriminate.
Defined.

(** Whatever the collaborators do, [delete_document(f)] leaves the ledger
    records of every other name, and the stored fragments of every other
    name with their order, as they were. *)
Theorem delete_document_frame (s : VectorStoreService) (f g : string) (e : env) :
  f ≠ g →
  documents_metadata (delete_document s f e).1 !! g = documents_metadata s !! g
  ∧ filter (tagged g) (store_docs (delete_document s f e).1)
    = filter (tagged g) (store_docs s).
Proof.
  intros Hne.
  destruct (documents_metadata s !! f) as [info|] eqn:Hi;
    [|by rewrite delete_document_unknown].
  destruct (vectorstore s) as [l|] eqn:Hl;
    [|by rewrite delete_document_no_store].
  assert (Hs : is_Some (documents_metadata s !! f)) by eauto.
  assert (Hv : vectorstore s ≠ None) by (by rewrite Hl).
  destruct (decide (faiss_ok e = true ∨ docs_to_keep s f = [])) as [Hok|Hok].
  - destruct (delete_document_store s f e Hs Hv Hok) as (Hd & Hm & _).
    rewrite Hd, Hm. split; [by apply lookup_delete_ne|].
    by apply filter_tagged_keep.
  - destruct (delete_document_rebuild_raises s f e Hs Hv) as (Hd & _ & Hm);
      [by destruct (faiss_ok e); naive_solver|naive_solver|].
    rewrite Hd, Hm. split; [by apply lookup_delete_ne|done].
Qed.

Lemma delete_document_frame_witness :
  documents_metadata (delete_document (run init two_uploads) "a.txt" faiss_down).1
    !! "b.txt"
  = documents_metadata (run init two_uploads) !! "b.txt"
  ∧ filter (tagged "b.txt")
      (store_docs (delete_document (run init two_uploads) "a.txt" all_ok).1)
    = filter (tagged "b.txt") (store_docs (run init two_uploads)).
Proof.
  split.
  - apply (delete_document_frame (run init two_uploads) "a.txt" "b.txt" faiss_down).
    discriminate.
  - apply (delete_document_frame (run init two_uploads) "a.txt" "b.txt" all_ok).
    discriminate.
Defined.

(** ** How [delete_document] ends *)

Lemma delete_document_result (s : VectorStoreService) (f : string) (e : env) :
  (delete_document s f e).2 = true
  ↔ is_Some (documents_metadata s !! f) ∧ vectorstore s ≠ None
    ∧ match docs_to_keep s f with
      | [] => exists_ (index_path s) = true → rmtree e = IoOk
      | _ :: _ => faiss_ok e = true ∧ save_local e = IoOk
      end.
Proof.
  unfold docs_to_keep, store_docs, delete_document, from_documents, new_faiss.
  destruct (documents_metadata s !! f) as [info|];
    [|split; [done|by intros ([? ?] & _)]].
  destruct (vectorstore s) as [l|]; [|split; [done|by intros (_ & ? & _)]].
  destruct (filter _ (object_docs s l)) as [|doc keep]; simpl.
  - destruct (exists_ (index_path s)); [destruct (rmtree e)|]; simpl.
    + by eauto.
    + split; [done|]. intros (_ & _ & H). by specialize (H eq_refl).
    + split; [|done]. intros _. split; [by eauto|]. split; done.
  - destruct (faiss_ok e); [|split; [done|by intros (_ & _ & ? & _)]].
    unfold _save_vectorstore; simpl.
    destruct (save_local e); simpl; [by eauto|].
    split; [done|by intros (_ & _ & _ & ?)].
Qed.

(** [delete_document] answers [True] exactly when the name is in the
    ledger, the vector store is present and the step that follows the scan
    succeeds: with surviving documents, the rebuild and the index write;
    without, the removal of the index directory if there is one.  The
    metadata write plays no part. *)
Theorem delete_document_outcome (s : VectorStoreService) (f : string) (e : env) :
  (delete_document s f e).2 = true
  ↔ is_Some (documents_metadata s !! f) ∧ vectorstore s ≠ None
    ∧ match docs_to_keep s f with
      | [] => exists_ (index_path s) = true → rmtree e = IoOk
      | _ :: _ => faiss_ok e = true ∧ save_local e = IoOk
      end.
Proof. exact (delete_document_result s f e). Qed.

(** Once [delete_document(f)] has passed its two checks, whether it then
    succeeds or fails, every later [delete_document(f)] answers [False] at
    the name check and changes nothing: a delete that failed after the
    checks cannot be tried again. *)
Theorem delete_document_not_repeatable (s : VectorStoreService) (f : string)
    (e e' : env) :
  is_Some (documents_metadata s !! f) → vectorstore s ≠ None →
  delete_document (delete_document s f e).1 f e' = ((delete_document s f e).1, false).
Proof.
  intros Hi Hv. apply delete_document_unknown.
  by rewrite delete_document_ledger, lookup_delete_eq.
Qed.

Lemma delete_document_not_repeatable_witness :
  (delete_document (run init two_uploads) "a.txt" faiss_down).2 = false
  ∧ delete_document (delete_document (run init two_uploads) "a.txt" faiss_down).1
      "a.txt" all_ok
    = ((delete_document (run init two_uploads) "a.txt" faiss_down).1, false).
Proof.
  split; [reflexivity|].
  apply (delete_document_not_repeatable (run init two_uploads) "a.txt" faiss_down all_ok).
  - vm_compute. by eexists.
  - by vm_compute.
Defined.

(** ** Upload, then delete *)

Lemma record_chunks_delete f n (m : gmap string DocInfo) :
  m !! f = None → delete f (record_chunks f n m) = m.
Proof.
  intros Hf. unfold record_chunks. rewrite Hf.
  by rewrite delete_insert_eq, delete_id.
Qed.

Lemma filter_not_tagged_all f (docs : list Document) :
  (∀ doc, doc ∈ docs → ¬ tagged f doc) →
  filter (λ doc, ¬ tagged f doc) docs = docs.
Proof.
  induction docs as [|doc docs IH]; intros H; [done|].
  rewrite filter_cons_True by (apply H; left).
  f_equal. apply IH. intros doc' Hin. apply H. by right.
Qed.

Lemma filter_not_tagged_tag f (docs : list Document) :
  filter (λ doc, ¬ tagged f doc) (tag f <$> docs) = [].
Proof.
  induction docs as [|doc docs IH]; [done|].
  rewrite fmap_cons, filter_cons_False; [done|].
  intros H. apply H, tagged_tag.
Qed.

(** Uploading a non-empty batch under a name that is neither in the
    ledger nor on a stored fragment and then deleting that name, with
    collaborators that work for the delete, gives back the stored documents,
    in their order, and the ledger as they were before the upload; the
    delete answers [True]. *)
Theorem add_then_delete (s : VectorStoreService) (docs : list Document)
    (f : string) (e1 e2 : env) :
  well_formed s → docs ≠ [] →
  documents_metadata s !! f = None →
  (∀ doc, doc ∈ store_docs s → ¬ tagged f doc) →
  faiss_ok e1 = true →
  faiss_ok e2 = true → save_local e2 = IoOk → rmtree e2 = IoOk →
  (delete_document (add_documents s docs f e1).1.2 f e2).2 = true
  ∧ store_docs (delete_document (add_documents s docs f e1).1.2 f e2).1 = store_docs s
  ∧ documents_metadata (delete_document (add_documents s docs f e1).1.2 f e2).1
    = documents_metadata s.
Proof.
  intros Hwf Hdocs Hf Hnone He1 He2 Hsave Hrm.
  destruct (add_documents_inserted s docs f e1 Hwf He1 Hdocs) as (Hd & Hm & Hv & _).
  assert (Hs : is_Some (documents_metadata (add_documents s docs f e1).1.2 !! f))
    by (by rewrite Hm, record_chunks_lookup).
  assert (Hk : docs_to_keep (add_documents s docs f e1).1.2 f = store_docs s).
  { unfold docs_to_keep.
    by rewrite Hd, filter_app, filter_not_tagged_tag, app_nil_r,
      filter_not_tagged_all. }
  destruct (delete_document_store (add_documents s docs f e1).1.2 f e2 Hs Hv)
    as (Hd' & Hm' & _); [by left|].
  split; [|split].
  - apply delete_document_result. split; [done|]. split; [done|].
    by destruct (docs_to_keep _ f).
  - by rewrite Hd', Hk.
  - by rewrite Hm', Hm, record_chunks_delete.
Qed.

Lemma add_then_delete_witness :
  store_docs (delete_document
                (add_documents (run init two_uploads) [plain "w"] "c.txt" all_ok).1.2
                "c.txt" all_ok).1
  = store_docs (run init two_uploads).
Proof.
  assert (Hwf : well_formed (run init two_uploads)).
  { intros l. vm_compute. intros [= <-]. lia. }
  assert (Hnone : ∀ doc, doc ∈ store_docs (run init two_uploads) → ¬ tagged "c.txt" doc).
  { intros doc Hin Ht.
    assert (H0 : count_tagged "c.txt" (store_docs (run init two_uploads)) = 0)
      by (by vm_compute).
    unfold count_tagged in H0. apply length_zero_iff_nil in H0.
    assert (Hd : doc ∈ filter (tagged "c.txt") (store_docs (run init two_uploads)))
      by (by apply list_elem_of_filter).
    rewrite H0 in Hd. by apply elem_of_nil in Hd. }
  assert (Hdocs : [plain "w"] ≠ []) by discriminate.
  apply (add_then_delete (run init two_uploads) [plain "w"] "c.txt" all_ok all_ok
           Hwf Hdocs eq_refl Hnone eq_refl eq_refl eq_refl eq_refl).
Defined.

(** ** The files and the restart *)

Lemma store_docs_object s l : vectorstore s = Some l → store_docs s = object_docs s l.
Proof. unfold store_docs. by intros ->. Qed.

(** After an [add_documents] that returns and whose metadata write
    succeeds, the two files hold what the service holds in memory: the index
    file the stored documents, the metadata file the ledger. *)
Theorem add_documents_persists (s : VectorStoreService) (docs : list Document)
    (f : string) (e : env) (n : nat) :
  (add_documents s docs f e).2 = Return n → json_dump e = IoOk →
  persisted_in_sync (add_documents s docs f e).1.2.
Proof.
  destruct (faiss_ok e) eqn:He; [|by rewrite add_documents_insert_fails].
  destruct docs as [|doc docs];
    [by rewrite (proj2 (add_documents_empty s f e))|].
  rewrite add_documents_unfold by done. cbv zeta.
  unfold persisted_in_sync, _save_vectorstore, _save_metadata, new_faiss.
  destruct (vectorstore s) as [l|] eqn:Hv; simpl; rewrite ?Hv;
    (destruct (save_local e); [|done]); simpl; intros _ Hj;
    rewrite ?Hj; simpl; rewrite ?Hv; split; reflexivity.
Qed.

Lemma add_documents_persists_witness :
  persisted_in_sync (add_documents init [plain "x"] "a.txt" all_ok).1.2.
Proof.
  apply (add_documents_persists init [plain "x"] "a.txt" all_ok 1); reflexivity.
Defined.

(** After a [delete_document] that answers [True] and whose metadata
    write succeeds, the two files hold what the service holds in memory; in
    particular, when no document survives there is no index directory
    left. *)
Theorem delete_document_persists (s : VectorStoreService) (f : string) (e : env) :
  (delete_document s f e).2 = true → json_dump e = IoOk →
  persisted_in_sync (delete_document s f e).1.
Proof.
  unfold persisted_in_sync, delete_document, _save_vectorstore, _save_metadata,
    from_documents, new_faiss.
  destruct (documents_metadata s !! f) as [info|]; [|done].
  destruct (vectorstore s) as [l|]; [|done].
  destruct (filter _ (object_docs s l)) as [|doc keep]; simpl.
  - destruct (index_path s) eqn:Hi; simpl;
      try (destruct (rmtree e); [|done]); simpl; intros _ Hj; by rewrite Hj.
  - destruct (faiss_ok e); [|done]. simpl.
    destruct (save_local e); [|done]. simpl. intros _ Hj. by rewrite Hj.
Qed.

Lemma delete_document_persists_witness :
  persisted_in_sync (delete_document (run init two_uploads) "a.txt" all_ok).1.
Proof.
  apply (delete_document_persists (run init two_uploads) "a.txt" all_ok); reflexivity.
Defined.

Lemma similarity_search_ext faiss_search s1 s2 query k e :
  is_ready s1 = is_ready s2 → store_docs s1 = store_docs s2 →
  similarity_search faiss_search s1 query k e
  = similarity_search faiss_search s2 query k e.
Proof.
  unfold is_ready, similarity_search, store_docs.
  destruct (vectorstore s1), (vectorstore s2); simpl; try done.
  by intros _ ->.
Qed.

Lemma get_stats_ext s1 s2 :
  store_docs s1 = store_docs s2 → documents_metadata s1 = documents_metadata s2 →
  get_stats s1 = get_stats s2.
Proof.
  intros Hd Hm. unfold get_stats.
  by rewrite !get_document_count_store_docs, Hd, Hm.
Qed.

Lemma restart_loaded s e :
  persisted_in_sync s →
  embeddings_ok e = true → load_local_ok e = true → json_load_ok e = true →
  ∃ s', restart s e = Return s'
    ∧ store_docs s' = store_docs s
    ∧ documents_metadata s' = documents_metadata s
    ∧ is_ready s' = is_ready s
    ∧ index_path s' = index_path s ∧ metadata_path s' = metadata_path s.
Proof.
  intros [Hmeta Hindex] He Hl Hj. unfold restart, __init__. rewrite He.
  eexists. split; [done|].
  unfold _load_metadata, _load_vectorstore, new_faiss; simpl.
  rewrite Hmeta, Hindex; simpl.
  destruct (vectorstore s) as [l|] eqn:Hv; simpl; rewrite ?Hl, Hj; simpl.
  - split; [by rewrite (store_docs_object s l)|]. split; [done|].
    split; [by unfold is_ready; simpl; rewrite Hv|done].
  - split; [by unfold store_docs; rewrite Hv|]. split; [done|].
    split; [by unfold is_ready; simpl; rewrite Hv|done].
Qed.

(** A restart on files that hold what the service holds, with loaders
    that work, gives a service with the same stored documents in the same
    order, the same ledger, hence the same [is_ready()], [get_stats()],
    [list_documents()] and [similarity_search] results, and the files
    untouched. *)
Theorem restart_round_trip (s : VectorStoreService) (e : load_env) :
  persisted_in_sync s →
  embeddings_ok e = true → load_local_ok e = true → json_load_ok e = true →
  ∃ s', restart s e = Return s'
    ∧ store_docs s' = store_docs s
    ∧ documents_metadata s' = documents_metadata s
    ∧ is_ready s' = is_ready s
    ∧ get_stats s' = get_stats s
    ∧ list_documents s' = list_documents s
    ∧ index_path s' = index_path s ∧ metadata_path s' = metadata_path s
    ∧ ∀ faiss_search query k e',
        similarity_search faiss_search s' query k e'
        = similarity_search faiss_search s query k e'.
Proof.
  intros Hsync He Hl Hj.
  destruct (restart_loaded s e Hsync He Hl Hj) as (s' & Hr & Hd & Hm & Hy & Hi & Hp).
  exists s'. split; [done|]. split; [done|]. split; [done|]. split; [done|].
  split; [by apply get_stats_ext|].
  split; [by unfold list_documents; rewrite Hm|].
  split; [done|]. split; [done|].
  intros faiss_search query k e'. by apply similarity_search_ext.
Qed.

Lemma restart_round_trip_witness :
  ∃ s', restart (run init two_uploads) loads_ok = Return s'
    ∧ get_stats s' = get_stats (run init two_uploads).
Proof.
  assert (Hsync : persisted_in_sync (run init two_uploads)).
  { split; by vm_compute. }
  destruct (restart_round_trip (run init two_uploads) loads_ok Hsync
              eq_refl eq_refl eq_refl) as (s' & H1 & _ & _ & _ & H5 & _).
  exists s'. split; [exact H1|exact H5].
Defined.

(** ** Start-up *)

Lemma init_cases (index : persisted (list Document))
    (meta : persisted (gmap string DocInfo)) (e : load_env) :
  (__init__ index meta e = Raise FaissError ↔ embeddings_ok e = false)
  ∧ ∀ s, __init__ index meta e = Return s →
      (is_ready s = true ↔ ∃ docs, index = Stored docs ∧ load_local_ok e = true)
      ∧ (∀ docs, index = Stored docs → load_local_ok e = true → store_docs s = docs)
      ∧ documents_metadata s
        = match meta with
          | Stored m => if json_load_ok e then m else ∅
          | _ => ∅
          end
      ∧ index_path s = index ∧ metadata_path s = meta.
Proof.
  unfold __init__. destruct (embeddings_ok e); [|split; [done|by intros s]].
  split; [done|]. intros s [= <-].
  unfold _load_metadata, _load_vectorstore, new_faiss, is_ready, store_docs,
    object_docs; simpl.
  destruct index as [|docs|], meta as [|m|]; simpl;
    destruct (load_local_ok e), (json_load_ok e); simpl;
    repeat split; try done; try (by intros (? & ? & ?)); try (by intros ? [= <-]);
    try (by eauto).
Qed.

(** The constructor raises only when the embedding model cannot be made.
    A missing, half-written or unloadable index leaves the service not
    ready; an index that loads gives back its documents; a missing,
    half-written or unloadable metadata file leaves the ledger empty.  The
    constructor writes neither file. *)
Theorem init_recovers (index : persisted (list Document))
    (meta : persisted (gmap string DocInfo)) (e : load_env) :
  (__init__ index meta e = Raise FaissError ↔ embeddings_ok e = false)
  ∧ ∀ s, __init__ index meta e = Return s →
      (is_ready s = true ↔ ∃ docs, index = Stored docs ∧ load_local_ok e = true)
      ∧ (∀ docs, index = Stored docs → load_local_ok e = true → store_docs s = docs)
      ∧ documents_metadata s
        = match meta with
          | Stored m => if json_load_ok e then m else ∅
          | _ => ∅
          end
      ∧ index_path s = index ∧ metadata_path s = meta.
Proof. exact (init_cases index meta e). Qed.

(** When the start-up could not load the index, or could not load the
    ledger, no document can be deleted: [delete_document] answers [False]
    for every name and changes nothing, although the names are still listed
    (first case) or their fragments still stored (second case). *)
Theorem no_delete_after_partial_load (index : persisted (list Document))
    (meta : persisted (gmap string DocInfo)) (e : load_env) (s : VectorStoreService) :
  __init__ index meta e = Return s →
  (∀ docs, index ≠ Stored docs) ∨ load_local_ok e = false
  ∨ (∀ m, meta ≠ Stored m) ∨ json_load_ok e = false →
  ∀ f e', delete_document s f e' = (s, false).
Proof.
  intros Hs Hlost f e'.
  destruct (init_cases index meta e) as [_ H].
  destruct (H s Hs) as (Hready & _ & Hm & _).
  destruct Hlost as [Hi|[Hl|[Hmeta|Hj]]].
  - apply delete_document_no_store, is_ready_false.
    destruct (is_ready s); [|done].
    destruct Hready as [Hr _]. destruct (Hr eq_refl) as (docs & -> & _).
    by destruct (Hi docs).
  - apply delete_document_no_store, is_ready_false.
    destruct (is_ready s); [|done].
    destruct Hready as [Hr _]. destruct (Hr eq_refl) as (docs & _ & Hl').
    by rewrite Hl in Hl'.
  - apply delete_document_unknown. rewrite Hm.
    destruct meta as [|m|]; [done| |done]. by destruct (Hmeta m).
  - apply delete_document_unknown. rewrite Hm, Hj. by destruct meta.
Qed.

Lemma no_delete_after_partial_load_witness :
  ∃ s, __init__ Damaged (Stored {["a.txt" := mkDocInfo 1 "a.txt"]}) loads_ok = Return s
    ∧ list_documents s = [("a.txt", 1)]
    ∧ delete_document s "a.txt" all_ok = (s, false).
Proof.
  eexists. split; [reflexivity|]. split; [by vm_compute|].
  apply (no_delete_after_partial_load Damaged
           (Stored {["a.txt" := mkDocInfo 1 "a.txt"]}) loads_ok _ eq_refl).
  left. discriminate.
Defined.

(** ** Statistics and listing *)

(** [list_documents()] has one entry per ledger record, with distinct
    names: its length is [total_documents] of [get_stats()], a name is listed
    exactly when [get_stats()] has it under ['documents'], and with the count
    recorded there. *)
Theorem list_documents_stats (s : VectorStoreService) :
  length (list_documents s) = total_documents (get_stats s)
  ∧ NoDup (list_documents s).*1
  ∧ ∀ f n, (f, n) ∈ list_documents s
           ↔ ∃ info, documents (get_stats s) !! f = Some info ∧ chunks info = n.
Proof.
  split; [|split].
  - unfold list_documents. simpl. by rewrite length_fmap, length_map_to_list.
  - unfold list_documents. rewrite <- list_fmap_compose.
    apply (NoDup_fst_map_to_list (documents_metadata s)).
  - intros f n. apply elem_of_list_documents.
Qed.

(** ** Source attributions *)

Lemma string_length_append (s1 s2 : string) :
  String.length (s1 +:+ s2) = String.length s1 + String.length s2.
Proof. induction s1 as [|c s1 IH]; simpl; [done|]. by rewrite IH. Qed.

Lemma str_prefix_length_le n : ∀ s, String.length (str_prefix n s) ≤ n.
Proof.
  unfold str_prefix. induction n as [|n IH]; intros [|c s]; simpl; try lia.
  specialize (IH s). lia.
Qed.

(** [_format_sources] gives one attribution per document, in the order
    of the documents, and no [content] longer than 503 characters. *)
Theorem format_sources_bounded (docs : list Document) :
  length (_format_sources docs) = length docs
  ∧ (∀ i, content <$> (_format_sources docs !! i)
          = (λ doc, content (format_source doc)) <$> (docs !! i))
  ∧ ∀ info, info ∈ _format_sources docs → String.length (content info) ≤ 503.
Proof.
  unfold _format_sources. split; [by rewrite length_fmap|]. split.
  - intros i. rewrite list_lookup_fmap. by destruct (docs !! i).
  - intros info (doc & -> & _)%list_elem_of_fmap. unfold format_source; simpl.
    case_bool_decide as Hlen.
    + rewrite string_length_append. pose proof (str_prefix_length_le 500 (page_content doc)).
      simpl. lia.
    + lia.
Qed.

(** * Further properties of the pipeline *)

(** ** Answering a question *)

(** With a ready store and collaborators that work, [query] searches the
    documents the store holds at that moment, makes one generation request
    with them, and returns the generated text as it is, the attributions of
    exactly those documents, and the question. *)
Theorem query_success (float : Type)
    (settings_temperature : option float) (settings_max_tokens : option Z)
    (faiss_search : string → Z → list Document → list Document)
    (generate : LlmCall float → result string)
    (s : VectorStoreService) (question : string) (k : Z)
    (temperature : option float) (max_tokens : option Z)
    (e_retriever e_search : env) (text : string) :
  is_ready s = true →
  faiss_ok e_retriever = true → faiss_ok e_search = true →
  generate (mkLlmCall float (resolve temperature settings_temperature)
              (resolve max_tokens settings_max_tokens)
              (faiss_search question k (store_docs s)) question)
  = Return text →
  query float settings_temperature settings_max_tokens faiss_search generate
    s question k temperature max_tokens e_retriever e_search true
  = (Return (mkQueryResult text
               (_format_sources (faiss_search question k (store_docs s))) question),
     [mkLlmCall float (resolve temperature settings_temperature)
        (resolve max_tokens settings_max_tokens)
        (faiss_search question k (store_docs s)) question]).
Proof.
  intros Hready Hr Hs Hgen. unfold query, get_retriever, invoke.
  rewrite Hready; simpl. revert Hready Hgen. unfold is_ready, store_docs.
  destruct (vectorstore s) as [l|]; [|by rewrite bool_decide_eq_true].
  intros _ Hgen. rewrite Hr, Hs; simpl.
  unfold resolve in Hgen. by rewrite Hgen.
Qed.

Lemma query_success_witness :
  query Z (Some 7%Z) (Some 1024%Z) first_k (λ _, Return "FAISS is an index.")
    (run init two_uploads) "What is FAISS?" 1 None (Some 64%Z) all_ok all_ok true
  = (Return (mkQueryResult "FAISS is an index."
               (_format_sources [tag "a.txt" (plain "x")]) "What is FAISS?"),
     [mkLlmCall Z (Some 7%Z) (Some 64%Z) [tag "a.txt" (plain "x")] "What is FAISS?"]).
Proof.
  apply (query_success Z (Some 7%Z) (Some 1024%Z) first_k
           (λ _, Return "FAISS is an index.") (run init two_uploads)
           "What is FAISS?" 1 None (Some 64%Z) all_ok all_ok "FAISS is an index.");
    reflexivity.
Defined.

(** Whatever happens, [query] makes at most one generation request, and
    a request it makes carries the question, the documents found for it in
    the store as it is then, and the temperature and token limit given as
    arguments, the settings standing in only for an argument that is
    [None]. *)
Theorem query_requests (float : Type)
    (settings_temperature : option float) (settings_max_tokens : option Z)
    (faiss_search : string → Z → list Document → list Document)
    (generate : LlmCall float → result string)
    (s : VectorStoreService) (question : string) (k : Z)
    (temperature : option float) (max_tokens : option Z)
    (e_retriever e_search : env) (groq_ok : bool) :
  length (query float settings_temperature settings_max_tokens faiss_search generate
            s question k temperature max_tokens e_retriever e_search groq_ok).2 ≤ 1
  ∧ ∀ request,
      request ∈ (query float settings_temperature settings_max_tokens faiss_search
                   generate s question k temperature max_tokens
                   e_retriever e_search groq_ok).2 →
      request = mkLlmCall float (resolve temperature settings_temperature)
                  (resolve max_tokens settings_max_tokens)
                  (faiss_search question k (store_docs s)) question.
Proof.
  unfold query, get_retriever, invoke, is_ready, store_docs.
  destruct (vectorstore s) as [l|]; simpl.
  2:{ split; [lia|]. by intros request Hin%elem_of_nil. }
  destruct (faiss_ok e_retriever), groq_ok, (faiss_ok e_search); simpl;
    try (split; [lia|]; by intros request Hin%elem_of_nil).
  destruct (generate _); simpl; (split; [lia|]);
    by intros request ->%list_elem_of_singleton.
Qed.

(** With a ready store, [query] either returns what the model generated
    for the one request it made, with the attributions of the documents of
    that request and the question, or raises: the FAISS error when the
    retriever or the search fails, the client error when [ChatGroq] cannot
    be made (no request is made in these cases), or the error of the
    generation request.  No failure is turned into an answer. *)
Theorem query_ready (float : Type)
    (settings_temperature : option float) (settings_max_tokens : option Z)
    (faiss_search : string → Z → list Document → list Document)
    (generate : LlmCall float → result string)
    (s : VectorStoreService) (asked : string) (k : Z)
    (temperature : option float) (max_tokens : option Z)
    (e_retriever e_search : env) (groq_ok : bool) :
  is_ready s = true →
  match query float settings_temperature settings_max_tokens faiss_search generate
          s asked k temperature max_tokens e_retriever e_search groq_ok with
  | (Return r, requests) =>
      faiss_ok e_retriever = true ∧ groq_ok = true ∧ faiss_ok e_search = true
      ∧ ∃ request, requests = [request]
          ∧ generate request = Return (answer r)
          ∧ sources r = _format_sources (llm_context float request)
          ∧ question r = asked
  | (Raise x, requests) =>
      (requests = [] ∧ x = FaissError ∧ faiss_ok e_retriever = false)
      ∨ (requests = [] ∧ x = LlmError ∧ groq_ok = false)
      ∨ (requests = [] ∧ x = FaissError ∧ faiss_ok e_search = false)
      ∨ ∃ request, requests = [request] ∧ generate request = Raise x
  end.
Proof.
  intros Hready. unfold query, get_retriever, invoke. rewrite Hready; simpl.
  revert Hready. unfold is_ready.
  destruct (vectorstore s) as [l|]; [intros _|by rewrite bool_decide_eq_true].
  destruct (faiss_ok e_retriever); simpl; [|by left].
  destruct groq_ok; [|by right; left].
  destruct (faiss_ok e_search); simpl; [|by right; right; left].
  destruct (generate _) as [text|x] eqn:Hgen.
  - do 3 (split; [done|]). by eexists.
  - right; right; right. by eexists.
Qed.

Lemma query_ready_witness :
  ∃ request,
    query Z (Some 7%Z) (Some 1024%Z) first_k (λ _, Raise LlmError)
      (run init two_uploads) "What is FAISS?" 1 None None all_ok all_ok true
    = (Raise LlmError, [request]).
Proof.
  pose proof (query_ready Z (Some 7%Z) (Some 1024%Z) first_k (λ _, Raise LlmError)
                (run init two_uploads) "What is FAISS?" 1 None None all_ok all_ok true
                eq_refl) as H.
  vm_compute in H.
  destruct H as [(Hn & _)|[(Hn & _)|[(Hn & _)|(request & Hreq & _)]]];
    try discriminate Hn.
  exists request. injection Hreq as <-. reflexivity.
Defined.

(** ** The health check *)

(** A pipeline that was constructed always reports [llm_ready]: the
    constructor either stores the client or raises.  The reported
    [document_count] is [total_chunks] of [get_stats()], and it is [0]
    whenever [vectorstore_ready] is [False]. *)
Theorem health_check_constructed (ChatGroq : Type) (client : result ChatGroq)
    (p : RAGPipeline ChatGroq) (s : VectorStoreService) :
  RAGPipeline_init ChatGroq client = Return p →
  llm_ready (health_check ChatGroq p s) = true
  ∧ document_count (health_check ChatGroq p s) = total_chunks (get_stats s)
  ∧ (vectorstore_ready (health_check ChatGroq p s) = false →
     document_count (health_check ChatGroq p s) = 0).
Proof.
  unfold RAGPipeline_init. destruct client as [c|x]; [|done]. intros [= <-].
  split; [|split].
  - done.
  - done.
  - simpl. intros Hv%is_ready_false. unfold get_document_count. by rewrite Hv.
Qed.

Lemma health_check_constructed_witness :
  llm_ready (health_check unit (mkRAGPipeline unit (Some ())) init) = true
  ∧ document_count (health_check unit (mkRAGPipeline unit (Some ())) init) = 0.
Proof.
  destruct (health_check_constructed unit (Return ()) (mkRAGPipeline unit (Some ()))
              init eq_refl) as (H1 & _ & H3).
  split; [exact H1|]. apply H3. reflexivity.
Defined.

(** * How calls compose *)

Lemma record_chunks_twice f n1 n2 (m : gmap string DocInfo) :
  record_chunks f n2 (record_chunks f n1 m) = record_chunks f (n1 + n2) m.
Proof.
  unfold record_chunks at 1. rewrite record_chunks_lookup.
  unfold record_chunks.
  destruct (m !! f) as [[c g]|]; simpl; rewrite insert_insert_eq;
    do 2 f_equal; lia.
Qed.

(** Two uploads under one name whose inserts succeed leave in the store
    and in the ledger what one upload of the two batches together leaves:
    the second batch is appended after the first, and the recorded count is
    the sum. *)
Theorem add_documents_accumulates (s : VectorStoreService)
    (docs1 docs2 : list Document) (f : string) (e1 e2 e : env) :
  well_formed s →
  faiss_ok e1 = true → faiss_ok e2 = true → faiss_ok e = true →
  store_docs (add_documents (add_documents s docs1 f e1).1.2 docs2 f e2).1.2
  = store_docs (add_documents s (docs1 ++ docs2) f e).1.2
  ∧ documents_metadata (add_documents (add_documents s docs1 f e1).1.2 docs2 f e2).1.2
    = documents_metadata (add_documents s (docs1 ++ docs2) f e).1.2.
Proof.
  intros Hwf He1 He2 He.
  destruct (decide (docs1 = [])) as [->|H1].
  { rewrite (proj1 (add_documents_empty s f e1)). simpl.
    destruct (decide (docs2 = [])) as [->|H2].
    - by rewrite !(proj1 (add_documents_empty s f _)).
    - destruct (add_documents_inserted s docs2 f e2 Hwf He2 H2) as (Hd2 & Hm2 & _).
      destruct (add_documents_inserted s docs2 f e Hwf He H2) as (Hd & Hm & _).
      by rewrite Hd2, Hm2, Hd, Hm. }
  destruct (add_documents_inserted s docs1 f e1 Hwf He1 H1)
    as (Hd1 & Hm1 & _ & _ & Hwf1).
  destruct (decide (docs2 = [])) as [->|H2].
  { rewrite (proj1 (add_documents_empty _ f e2)), app_nil_r.
    destruct (add_documents_inserted s docs1 f e Hwf He H1) as (Hd & Hm & _).
    by rewrite Hd1, Hm1, Hd, Hm. }
  assert (H12 : docs1 ++ docs2 ≠ []) by (by destruct docs1).
  destruct (add_documents_inserted _ docs2 f e2 Hwf1 He2 H2) as (Hd2 & Hm2 & _).
  destruct (add_documents_inserted s (docs1 ++ docs2) f e Hwf He H12) as (Hd & Hm & _).
  rewrite Hd2, Hd1, Hm2, Hm1, Hd, Hm. split.
  - by rewrite fmap_app, app_assoc.
  - by rewrite record_chunks_twice, length_app.
Qed.

Lemma add_documents_accumulates_witness :
  documents_metadata
    (add_documents (add_documents init [plain "x"] "a.txt" all_ok).1.2
       [plain "y"] "a.txt" disk_full).1.2
  = documents_metadata (add_documents init [plain "x"; plain "y"] "a.txt" all_ok).1.2.
Proof.
  assert (Hwf : well_formed init) by (by intros l).
  apply (add_documents_accumulates init [plain "x"] [plain "y"] "a.txt"
           all_ok disk_full all_ok Hwf eq_refl eq_refl eq_refl).
Defined.

Lemma filter_not_tagged_comm f g (docs : list Document) :
  filter (λ doc, ¬ tagged g doc) (filter (λ doc, ¬ tagged f doc) docs)
  = filter (λ doc, ¬ tagged f doc) (filter (λ doc, ¬ tagged g doc) docs).
Proof.
  induction docs as [|doc docs IH]; [done|].
  destruct (decide (tagged f doc)), (decide (tagged g doc));
    repeat (first [rewrite filter_cons_True by done
                  |rewrite filter_cons_False by naive_solver]);
    by rewrite ?IH.
Qed.

(** Two documents deleted one after the other, each delete answering
    [True], leave the same stored documents and the same ledger whichever
    is deleted first. *)
Theorem delete_document_commute (s : VectorStoreService) (f g : string)
    (e1 e2 e3 e4 : env) :
  (delete_document s f e1).2 = true →
  (delete_document (delete_document s f e1).1 g e2).2 = true →
  (delete_document s g e3).2 = true →
  (delete_document (delete_document s g e3).1 f e4).2 = true →
  store_docs (delete_document (delete_document s f e1).1 g e2).1
  = store_docs (delete_document (delete_document s g e3).1 f e4).1
  ∧ documents_metadata (delete_document (delete_document s f e1).1 g e2).1
    = documents_metadata (delete_document (delete_document s g e3).1 f e4).1.
Proof.
  intros (Hi1 & Hv1 & Hk1)%delete_document_true (Hi2 & Hv2 & Hk2)%delete_document_true
    (Hi3 & Hv3 & Hk3)%delete_document_true (Hi4 & Hv4 & Hk4)%delete_document_true.
  destruct (delete_document_store _ _ _ Hi1 Hv1 Hk1) as (Hd1 & Hm1 & _).
  destruct (delete_document_store _ _ _ Hi2 Hv2 Hk2) as (Hd2 & Hm2 & _).
  destruct (delete_document_store _ _ _ Hi3 Hv3 Hk3) as (Hd3 & Hm3 & _).
  destruct (delete_document_store _ _ _ Hi4 Hv4 Hk4) as (Hd4 & Hm4 & _).
  rewrite Hd2, Hm2, Hd4, Hm4. unfold docs_to_keep.
  rewrite Hd1, Hm1, Hd3, Hm3. unfold docs_to_keep. split.
  - apply filter_not_tagged_comm.
  - apply delete_delete.
Qed.

Lemma delete_document_commute_witness :
  store_docs
    (delete_document
       (delete_document (add_documents (run init two_uploads) [plain "w"] "c.txt" all_ok).1.2
          "a.txt" all_ok).1 "b.txt" all_ok).1
  = store_docs
      (delete_document
         (delete_document (add_documents (run init two_uploads) [plain "w"] "c.txt" all_ok).1.2
            "b.txt" all_ok).1 "a.txt" all_ok).1.
Proof.
  apply (delete_document_commute
           (add_documents (run init two_uploads) [plain "w"] "c.txt" all_ok).1.2
           "a.txt" "b.txt" all_ok all_ok all_ok all_ok); reflexivity.
Defined.
